(** * pyqsub: option strings, PBS scripts and path normalisation

    A shallow embedding of [pyqsub.py] (Python 2): [make_optstr], [submit],
    [isPath], [parser_group] and [__run__], with the Python primitives they
    use.

    - Python values are a closed variant ([pyval]); dictionaries are
      association lists in iteration order.
    - Exceptions are an error monad ([result]).
    - [submit] talks to the operating system (print, open/write, chmod,
      Popen, rename): it is a program over system calls ([prog]), run
      against an arbitrary handler, leaving a trace of the calls made.
    - [isPath] assigns into its list argument: lists live in a store
      ([heap]) and are passed by reference. *)

From Stdlib Require Import ZArith String Ascii DecimalString.
From stdpp Require Import gmap strings list.

Local Open Scope string_scope.
Local Open Scope Z_scope.
Local Open Scope list_scope.

Set Warnings "-register-all".

(** ** Characters and strings of the Python runtime *)

Definition chr (n : nat) : string := String (ascii_of_nat n) EmptyString.

(** The newline, the double quote and the backslash. *)
Definition nl : string := chr 10.
Definition dquote : string := chr 34.
Definition backslash : string := chr 92.

(** [sub in s] on strings. *)
Fixpoint str_contains (sub s : string) : bool :=
  String.prefix sub s ||
  match s with
  | EmptyString => false
  | String _ s' => str_contains sub s'
  end.

(** [s.split(sep)] for a one-character separator. *)
Fixpoint py_split (sep : ascii) (s : string) : list string :=
  match s with
  | EmptyString => [EmptyString]
  | String c s' =>
      if Ascii.eqb c sep then EmptyString :: py_split sep s'
      else match py_split sep s' with
           | [] => [String c EmptyString]
           | w :: ws => String c w :: ws
           end
  end.

(** [s.lstrip(c)] and [s.rstrip(c)] for a one-character set. *)
Fixpoint py_lstrip (c : ascii) (s : string) : string :=
  match s with
  | EmptyString => EmptyString
  | String a s' => if Ascii.eqb a c then py_lstrip c s' else s
  end.

Fixpoint py_rstrip (c : ascii) (s : string) : string :=
  match s with
  | EmptyString => EmptyString
  | String a s' =>
      match py_rstrip c s' with
      | EmptyString => if Ascii.eqb a c then EmptyString else String a EmptyString
      | r => String a r
      end
  end.

(** [l[0]] for the result of a split, which is never empty. *)
Definition item0 (l : list string) : string := hd EmptyString l.

(** [sep.join(l)]. *)
Definition py_join (sep : string) (l : list string) : string := String.concat sep l.

(** [str(n)] for an integer. *)
Definition str_of_Z (z : Z) : string := NilZero.string_of_int (Z.to_int z).

(** [s * n] for a string. *)
Fixpoint str_repeat (n : nat) (s : string) : string :=
  match n with
  | O => EmptyString
  | S n' => s +:+ str_repeat n' s
  end.

Definition hex_digit (n : nat) : string :=
  match n with
  | 10%nat => "a" | 11%nat => "b" | 12%nat => "c"
  | 13%nat => "d" | 14%nat => "e" | 15%nat => "f"
  | _ => str_of_Z (Z.of_nat n)
  end.

(** [repr(s)] for a byte string: single quotes unless the string has a
    single quote and no double quote. *)
Definition repr_char (quote : ascii) (c : ascii) : string :=
  let n := nat_of_ascii c in
  if Ascii.eqb c quote || Ascii.eqb c (ascii_of_nat 92) then backslash +:+ String c EmptyString
  else if (n =? 9)%nat then backslash +:+ "t"
  else if (n =? 10)%nat then backslash +:+ "n"
  else if (n =? 13)%nat then backslash +:+ "r"
  else if (n <? 32)%nat || (127 <=? n)%nat
       then backslash +:+ "x" +:+ hex_digit (n / 16)%nat +:+ hex_digit (n mod 16)%nat
  else String c EmptyString.

Fixpoint repr_chars (quote : ascii) (s : string) : string :=
  match s with
  | EmptyString => EmptyString
  | String c s' => repr_char quote c +:+ repr_chars quote s'
  end.

Definition py_repr_str (s : string) : string :=
  let quote := if str_contains "'" s && negb (str_contains dquote s)
               then ascii_of_nat 34 else ascii_of_nat 39 in
  String quote EmptyString +:+ repr_chars quote s +:+ String quote EmptyString.

(** ** Values *)

(** The values an option can take: [None], a boolean, an integer (an
    [int], or a [long] beyond the machine word), a string or a list of
    values, which may be lists themselves.  Floats are left out: their
    [str] is the platform's float formatting. *)
Inductive pyval : Type :=
| VNone
| VBool (b : bool)
| VInt (z : Z)
| VStr (s : string)
| VList (l : list pyval).

(** [sys.maxint] of a 64-bit build: an integer outside
    [-sys.maxint-1 .. sys.maxint] is a [long]. *)
Definition sys_maxint : Z := 9223372036854775807.

Definition is_long (z : Z) : bool := (z <? - sys_maxint - 1) || (sys_maxint <? z).

(** [bool(v)]. *)
Definition truthy (v : pyval) : bool :=
  match v with
  | VNone => false
  | VBool b => b
  | VInt z => negb (z =? 0)
  | VStr s => negb (String.eqb s EmptyString)
  | VList l => match l with [] => false | _ => true end
  end.

(** [type(v).__name__]. *)
Definition type_name (v : pyval) : string :=
  match v with
  | VNone => "NoneType"
  | VBool _ => "bool"
  | VInt z => if is_long z then "long" else "int"
  | VStr _ => "str"
  | VList _ => "list"
  end.

(** [repr(v)]: a [long] ends in [L], a string is quoted, a list shows the
    [repr] of its items. *)
Fixpoint py_repr (v : pyval) : string :=
  match v with
  | VNone => "None"
  | VBool true => "True"
  | VBool false => "False"
  | VInt z => if is_long z then str_of_Z z +:+ "L" else str_of_Z z
  | VStr s => py_repr_str s
  | VList l => "[" +:+ py_join ", " (map py_repr l) +:+ "]"
  end.

(** [str(v)]: the [repr], but for a string, which is itself, and for a
    [long], which has no [L]. *)
Definition py_str (v : pyval) : string :=
  match v with
  | VNone => "None"
  | VBool true => "True"
  | VBool false => "False"
  | VInt z => str_of_Z z
  | VStr s => s
  | VList l => "[" +:+ py_join ", " (map py_repr l) +:+ "]"
  end.

(** ** Exceptions *)

Inductive exn : Type :=
| TypeError (msg : string)
| UserWarning (msg : string)
| KeyError (key : string)
| AttributeError (msg : string)
| ValueError (msg : string)
| ArgumentTypeError (msg : string)
| RuntimeError (msg : string)
| IndexError (msg : string)
| OSError (msg : string).

Inductive result (A : Type) : Type :=
| Ok (a : A)
| Err (e : exn).
Arguments Ok {A} a.
Arguments Err {A} e.

#[global] Instance result_ret : MRet result := fun _ a => Ok a.
#[global] Instance result_bind : MBind result := fun _ _ f m =>
  match m with
  | Ok a => f a
  | Err e => Err e
  end.
#[global] Instance result_fmap : FMap result := fun _ _ f m =>
  match m with
  | Ok a => Ok (f a)
  | Err e => Err e
  end.

(** ** Dictionaries *)

(** A dictionary is the list of its items in iteration order. *)
Definition dict (V : Type) : Type := list (string * V).

Definition keys {V} (d : dict V) : list string := map fst d.

Fixpoint dict_get {V} (key : string) (d : dict V) : option V :=
  match d with
  | [] => None
  | (k, v) :: d' => if String.eqb k key then Some v else dict_get key d'
  end.

(** [d[key]]. *)
Definition getitem {V} (d : dict V) (key : string) : result V :=
  match dict_get key d with
  | Some v => Ok v
  | None => Err (KeyError key)
  end.

(** [d.get(key, default)]. *)
Definition dict_get_default {V} (d : dict V) (key : string) (default : V) : V :=
  match dict_get key d with
  | Some v => v
  | None => default
  end.

(** ** make_optstr *)

(** The items of a list as [sep.join] takes them, from index [i] on: an
    item that is not a string raises TypeError, the first such item
    first. *)
Fixpoint join_items (i : nat) (l : list pyval) : result (list string) :=
  match l with
  | [] => Ok []
  | VStr s :: l' => ss ← join_items (S i) l'; Ok (s :: ss)
  | v :: _ => Err (TypeError ("sequence item " +:+ str_of_Z (Z.of_nat i)
                                +:+ ": expected string, " +:+ type_name v +:+ " found"))
  end.

(** [sep.join(l)] for a list [l]. *)
Definition join_method (sep : string) (l : list pyval) : result string :=
  ss ← join_items 0 l;
  Ok (py_join sep ss).

(** One turn of the loop over [options.keys()]: the [if]/[elif] chain,
    every [elif] of which starts with [key in options_map.keys()]. *)
Definition optstr_step (options : dict pyval) (options_map : dict string)
    (list_delimiter : string) (optstr : list string) (key : string)
    : result (list string) :=
  if str_contains "qsub" key then Ok optstr
  else match dict_get key options_map with
       | None => Ok optstr
       | Some flag =>
           v ← getitem options key;
           if (String.length flag =? 0)%nat then Ok (optstr ++ [py_str v])
           else match v with
                | VList l =>
                    joined ← join_method list_delimiter l;
                    Ok (optstr ++ [flag +:+ "=" +:+ joined])
                | VBool b => if b then Ok (optstr ++ [flag]) else Ok optstr
                | _ => Ok (optstr ++ [flag +:+ "=" +:+ py_str v])
                end
       end.

Fixpoint optstr_loop (options : dict pyval) (options_map : dict string)
    (list_delimiter : string) (ks : list string) (optstr : list string)
    : result (list string) :=
  match ks with
  | [] => Ok optstr
  | key :: ks' =>
      optstr' ← optstr_step options options_map list_delimiter optstr key;
      optstr_loop options options_map list_delimiter ks' optstr'
  end.

(** The list [optstr] before it is joined. *)
Definition make_optstr_tokens (options : dict pyval) (options_map : dict string)
    (list_delimiter : string) : result (list string) :=
  optstr_loop options options_map list_delimiter (keys options) [].

Definition make_optstr (options : dict pyval) (options_map : dict string)
    (list_delimiter : string) : result string :=
  optstr ← make_optstr_tokens options options_map list_delimiter;
  Ok (py_join " " optstr).

(** ** Operators of the Python runtime used by submit *)

(** [v.split(sep)]: only strings have the method. *)
Definition split_method (v : pyval) (sep : ascii) : result (list string) :=
  match v with
  | VStr s => Ok (py_split sep s)
  | _ => Err (AttributeError ("'" +:+ type_name v +:+ "' object has no attribute 'split'"))
  end.

(** [s + v] for a string [s]. *)
Definition str_add (s : string) (v : pyval) : result string :=
  match v with
  | VStr t => Ok (s +:+ t)
  | _ => Err (TypeError ("cannot concatenate 'str' and '" +:+ type_name v +:+ "' objects"))
  end.

(** [v + s] for a string [s]. *)
Definition add_str (v : pyval) (s : string) : result string :=
  match v with
  | VStr t => Ok (t +:+ s)
  | VList _ => Err (TypeError ("can only concatenate list (not " +:+ dquote +:+ "str"
                                 +:+ dquote +:+ ") to list"))
  | _ => Err (TypeError ("unsupported operand type(s) for +: '" +:+ type_name v
                           +:+ "' and 'str'"))
  end.

Definition is_space (c : ascii) : bool :=
  let n := nat_of_ascii c in
  (n =? 32)%nat || ((9 <=? n)%nat && (n <=? 13)%nat).

Fixpoint lstrip_space (s : string) : string :=
  match s with
  | EmptyString => EmptyString
  | String a s' => if is_space a then lstrip_space s' else s
  end.

Fixpoint rstrip_space (s : string) : string :=
  match s with
  | EmptyString => EmptyString
  | String a s' =>
      match rstrip_space s' with
      | EmptyString => if is_space a then EmptyString else String a EmptyString
      | r => String a r
      end
  end.

(** The value of a string of decimal digits, most significant first. *)
Fixpoint digits_value (acc : Z) (s : string) : option Z :=
  match s with
  | EmptyString => Some acc
  | String c s' =>
      let n := nat_of_ascii c in
      if (48 <=? n)%nat && (n <=? 57)%nat
      then digits_value (10 * acc + Z.of_nat (n - 48)) s'
      else None
  end.

(** [int(s)] for a string: blanks around an optional sign and decimal
    digits. *)
Definition parse_int (s : string) : option Z :=
  match rstrip_space (lstrip_space s) with
  | EmptyString => None
  | String c s' =>
      if Ascii.eqb c "-"%char then
        match s' with EmptyString => None | _ => Z.opp <$> digits_value 0 s' end
      else if Ascii.eqb c "+"%char then
        match s' with EmptyString => None | _ => digits_value 0 s' end
      else digits_value 0 (String c s')
  end.

(** [int(v)]. *)
Definition py_int (v : pyval) : result Z :=
  match v with
  | VInt z => Ok z
  | VBool b => Ok (if b then 1 else 0)
  | VStr s =>
      match parse_int s with
      | Some z => Ok z
      | None => Err (ValueError ("invalid literal for int() with base 10: " +:+ py_repr_str s))
      end
  | _ => Err (TypeError ("int() argument must be a string or a number, not '"
                           +:+ type_name v +:+ "'"))
  end.

(** The integer a value counts as in arithmetic, if any. *)
Definition as_int (v : pyval) : option Z :=
  match v with
  | VInt z => Some z
  | VBool b => Some (if b then 1 else 0)
  | _ => None
  end.

Fixpoint list_repeat {A} (n : nat) (l : list A) : list A :=
  match n with
  | O => []
  | S n' => l ++ list_repeat n' l
  end.

(** [a * b]. *)
Definition py_mul (a b : pyval) : result pyval :=
  match as_int a, as_int b with
  | Some x, Some y => Ok (VInt (x * y))
  | Some n, None =>
      match b with
      | VStr s => Ok (VStr (str_repeat (Z.to_nat n) s))
      | VList l => Ok (VList (list_repeat (Z.to_nat n) l))
      | _ => Err (TypeError ("unsupported operand type(s) for *: '" +:+ type_name a
                               +:+ "' and '" +:+ type_name b +:+ "'"))
      end
  | None, Some n =>
      match a with
      | VStr s => Ok (VStr (str_repeat (Z.to_nat n) s))
      | VList l => Ok (VList (list_repeat (Z.to_nat n) l))
      | _ => Err (TypeError ("unsupported operand type(s) for *: '" +:+ type_name a
                               +:+ "' and '" +:+ type_name b +:+ "'"))
      end
  | None, None =>
      match a, b with
      | VStr _, _ | VList _, _ =>
          Err (TypeError ("can't multiply sequence by non-int of type '"
                            +:+ type_name b +:+ "'"))
      | _, VStr _ | _, VList _ =>
          Err (TypeError ("can't multiply sequence by non-int of type '"
                            +:+ type_name a +:+ "'"))
      | _, _ => Err (TypeError ("unsupported operand type(s) for *: '" +:+ type_name a
                                  +:+ "' and '" +:+ type_name b +:+ "'"))
      end
  end.

(** [stat.S_IRWXO], [stat.S_IRWXG] and [stat.S_IRWXU]. *)
Definition S_IRWXO : Z := 7.
Definition S_IRWXG : Z := 56.
Definition S_IRWXU : Z := 448.

(** ** Programs over system calls *)

(** The calls submit makes, indexed by what they return: the [print]
    statement, [open(path,'w').write(content)], [os.chmod],
    [subprocess.Popen(argv, stdout=PIPE).communicate()] (its standard
    output) and [os.rename]. *)
Inductive syscall : Type -> Type :=
| SysPrint (text : string) : syscall unit
| SysWrite (path content : string) : syscall unit
| SysChmod (path : string) (mode : Z) : syscall unit
| SysPopen (argv : list string) : syscall string
| SysRename (src dst : string) : syscall unit.

Inductive prog (A : Type) : Type :=
| Ret (a : A)
| Raise (e : exn)
| Call {R : Type} (c : syscall R) (k : R -> prog A).
Arguments Ret {A} a.
Arguments Raise {A} e.
Arguments Call {A R} c k.

Fixpoint prog_bind {A B} (f : A -> prog B) (p : prog A) : prog B :=
  match p with
  | Ret a => f a
  | Raise e => Raise e
  | Call c k => Call c (fun r => prog_bind f (k r))
  end.

#[global] Instance prog_ret : MRet prog := fun _ a => Ret a.
#[global] Instance prog_mbind : MBind prog := fun _ _ f p => prog_bind f p.

Definition call {R} (c : syscall R) : prog R := Call c Ret.

Definition lift {A} (r : result A) : prog A :=
  match r with
  | Ok a => Ret a
  | Err e => Raise e
  end.

(** The operating system answers each call, or fails it, and moves to a
    new state of the world. *)
Definition handler (W : Type) : Type := forall R, syscall R -> W -> result R * W.

(** A call with its answer. *)
Inductive event : Type :=
| Event {R : Type} (c : syscall R) (r : result R).

Record outcome (W A : Type) : Type := Outcome {
  returned : result A;
  world : W;
  trace : list event
}.
Arguments Outcome {W A} returned world trace.
Arguments returned {W A} o.
Arguments world {W A} o.
Arguments trace {W A} o.

(** Running a program: an exception, raised by the program or by a call,
    ends it. *)
Fixpoint run {W A} (h : handler W) (p : prog A) (w : W) : outcome W A :=
  match p with
  | Ret a => Outcome (Ok a) w []
  | Raise e => Outcome (Err e) w []
  | Call c k =>
      match h _ c w with
      | (Ok r, w') =>
          let o := run h (k r) w' in
          Outcome (returned o) (world o) (Event c (Ok r) :: trace o)
      | (Err e, w') => Outcome (Err e) w' [Event c (Err e)]
      end
  end.

(** ** submit *)

(** Lines 126 to 138: the text of the script. *)
Definition render_script (options : dict pyval) (module_name job_string : pyval)
    (optstr : string) : result string :=
  mn ← split_method module_name ".";
  qsub_N ← getitem options "qsub_N";
  qsub_walltime ← getitem options "qsub_walltime";
  let qsub_script :=
    "#!/bin/bash" +:+ nl +:+ "##" +:+ item0 mn +:+ " qsub script" +:+ nl +:+
    "#PBS -S /bin/sh" +:+ nl +:+ "#PBS -N " +:+ py_str qsub_N +:+ nl +:+
    "#PBS -l walltime=" +:+ py_str qsub_walltime +:+ nl in
  qsub_nodes ← getitem options "qsub_nodes";
  qsub_ppn ← getitem options "qsub_ppn";
  let qsub_script :=
    qsub_script +:+ "#PBS -V" +:+ nl +:+ "#PBS -l nodes=" +:+ py_str qsub_nodes +:+
    ":ppn=" +:+ py_str qsub_ppn +:+ nl in
  qsub_pmem ← getitem options "qsub_pmem";
  qsub_script ←
    (if truthy qsub_pmem then
       pmem ← getitem options "qsub_pmem";
       gb ← py_int pmem;
       Ok (qsub_script +:+ "#PBS -l pmem=" +:+ str_of_Z gb +:+ "Gb" +:+ nl)
     else Ok qsub_script);
  qsub_q ← getitem options "qsub_q";
  line ← str_add "#PBS -q " qsub_q;
  let qsub_script := qsub_script +:+ line +:+ nl in
  qsub_M ← getitem options "qsub_M";
  qsub_script ←
    (if truthy qsub_M then
       address ← getitem options "qsub_M";
       line ← str_add "#PBS -M " address;
       qsub_m ← getitem options "qsub_m";
       line ← str_add (line +:+ nl +:+ "#PBS -m ") qsub_m;
       Ok (qsub_script +:+ line +:+ nl)
     else Ok qsub_script);
  if truthy job_string then
    str_add qsub_script job_string
  else
    qsub_script ←
      (if truthy (dict_get_default options "qsub_mpi" (VBool false)) then
         qsub_nodes ← getitem options "qsub_nodes";
         qsub_ppn ← getitem options "qsub_ppn";
         default ← py_mul qsub_nodes qsub_ppn;
         let np := dict_get_default options "qsub_np" default in
         Ok (qsub_script +:+ "mpirun -n " +:+ py_str np +:+ " ")
       else Ok qsub_script);
    mn1 ← split_method module_name ".";
    mn2 ← split_method module_name ".";
    Ok (qsub_script +:+ "python -c " +:+ dquote +:+ "import " +:+ item0 mn1 +:+ "; "
          +:+ item0 mn2 +:+ ".__run__()" +:+ dquote +:+ " " +:+ optstr +:+ nl).

(** [out.rstrip('\n').split('.')[0]]. *)
Definition job_id (out : string) : string :=
  item0 (py_split "." (py_rstrip "010" out)).

Definition submit (options : dict pyval) (options_map : dict string)
    (module_name job_string : pyval) (list_delimiter : string) : prog Z :=
  if negb (truthy module_name) && negb (truthy job_string) then
    Raise (TypeError "One of module_name and job_string must be specified.")
  else if negb (truthy job_string) && truthy module_name
          && (length options_map =? 0)%nat then
    Raise (UserWarning "job_string not specified and options_map length is 0, no option flags will be appended to the pbs script ")
  else
    optstr ← lift (make_optstr options options_map list_delimiter);
    qsub_script ← lift (render_script options module_name job_string optstr);
    call (SysPrint ("Script:" +:+ nl +:+ "===============" +:+ nl +:+ nl +:+ qsub_script));;
    qsub_N ← lift (getitem options "qsub_N");
    path ← lift (add_str qsub_N "_temp.pbs");
    call (SysWrite path qsub_script);;
    qsub_N ← lift (getitem options "qsub_N");
    path ← lift (add_str qsub_N "_temp.pbs");
    call (SysChmod path (Z.lor (Z.lor S_IRWXO S_IRWXG) S_IRWXU));;
    qsub_N ← lift (getitem options "qsub_N");
    path ← lift (add_str qsub_N "_temp.pbs");
    out ← call (SysPopen ["qsub"; path]);
    call (SysPrint (nl +:+ "===============" +:+ nl +:+ "Submitted job: " +:+ out));;
    qsub_N ← lift (getitem options "qsub_N");
    src ← lift (add_str qsub_N "_temp.pbs");
    qsub_N ← lift (getitem options "qsub_N");
    prefix ← lift (add_str qsub_N ".p");
    call (SysRename src (prefix +:+ job_id out));;
    Ret 0.

(** ** A small operating system to run examples on *)

(** Files by path, with their content and mode, and what was printed. *)
Record memfs : Type := MemFS {
  files : gmap string (string * Z);
  printed : list string
}.

(** The calls on [memfs]; the qsub command answers [reply]. *)
Definition mem_handler (reply : string) : handler memfs :=
  fun R c =>
    match c in syscall R return memfs -> result R * memfs with
    | SysPrint text => fun w => (Ok tt, MemFS (files w) (printed w ++ [text]))
    | SysWrite path content => fun w =>
        let mode := match files w !! path with Some (_, m) => m | None => 420 end in
        (Ok tt, MemFS (<[path := (content, mode)]> (files w)) (printed w))
    | SysChmod path mode => fun w =>
        match files w !! path with
        | Some (content, _) =>
            (Ok tt, MemFS (<[path := (content, mode)]> (files w)) (printed w))
        | None => (Err (OSError "No such file or directory"), w)
        end
    | SysPopen argv => fun w => (Ok reply, w)
    | SysRename src dst => fun w =>
        match files w !! src with
        | Some f => (Ok tt, MemFS (<[dst := f]> (delete src (files w))) (printed w))
        | None => (Err (OSError "No such file or directory"), w)
        end
    end.

Definition empty_world : memfs := MemFS ∅ [].

(** ** The store of lists *)

(** [isPath] is called on strings and on lists, and assigns into the list
    it is given: a list is a reference into a store. *)
Definition loc : Type := positive.

Inductive obj : Type :=
| ONone
| OBool (b : bool)
| OInt (z : Z)
| OStr (s : string)
| OList (l : loc).

Abbreviation heap := (gmap loc (list obj)).

(** Computations on the store that may raise; the store survives an
    exception. *)
Definition HM (A : Type) : Type := heap -> result A * heap.

#[global] Instance HM_ret : MRet HM := fun _ a h => (Ok a, h).
#[global] Instance HM_bind : MBind HM := fun _ _ f m h =>
  match m h with
  | (Ok a, h') => f a h'
  | (Err e, h') => (Err e, h')
  end.

Definition raise {A} (e : exn) : HM A := fun h => (Err e, h).

(** A new list object. *)
Definition new_list (xs : list obj) : HM loc :=
  fun h => let l := fresh (dom h) in (Ok l, <[l := xs]> h).

(** [len(l)], [l[i]] and [l[i] = v].  A reference always points into the
    store; the other branch is there for totality. *)
Definition list_len (l : loc) : HM nat :=
  fun h => match h !! l with
           | Some xs => (Ok (length xs), h)
           | None => (Err (RuntimeError "dangling reference"), h)
           end.

Definition list_getitem (l : loc) (i : nat) : HM obj :=
  fun h => match h !! l with
           | Some xs => match xs !! i with
                        | Some x => (Ok x, h)
                        | None => (Err (IndexError "list index out of range"), h)
                        end
           | None => (Err (RuntimeError "dangling reference"), h)
           end.

Definition list_setitem (l : loc) (i : nat) (v : obj) : HM unit :=
  fun h => match h !! l with
           | Some xs =>
               if (i <? length xs)%nat then (Ok tt, <[l := <[i := v]> xs]> h)
               else (Err (IndexError "list assignment index out of range"), h)
           | None => (Err (RuntimeError "dangling reference"), h)
           end.

(** [for i,x in enumerate(l): l[i] = body(x)], from index [i], [n] turns:
    the assignments keep the length of the list. *)
Fixpoint for_enumerate (body : obj -> HM obj) (l : loc) (i n : nat) : HM unit :=
  match n with
  | O => mret tt
  | S n' =>
      x ← list_getitem l i;
      y ← body x;
      list_setitem l i y;;
      for_enumerate body l (S i) n'
  end.

(** ** The file system as isPath sees it *)

(** [ARGPARSE] (whether the argparse module was found at load time) and
    the queries [os.path.abspath], [os.path.exists], [os.path.isdir] and
    [glob.glob]. *)
Record env : Type := Env {
  ARGPARSE : bool;
  abspath : string -> string;
  path_exists : string -> bool;
  isdir : string -> bool;
  glob : string -> list string
}.

(** [os.path.sep]. *)
Definition sep : string := "/".

(** The part of a path up to and including its last slash, and the rest. *)
Fixpoint cut_last_slash (p : string) : option (string * string) :=
  match p with
  | EmptyString => None
  | String c p' =>
      match cut_last_slash p' with
      | Some (head, tail) => Some (String c head, tail)
      | None => if Ascii.eqb c "/"%char then Some ("/", p') else None
      end
  end.

(** [os.path.split(p)]. *)
Definition path_split (p : string) : string * string :=
  match cut_last_slash p with
  | None => (EmptyString, p)
  | Some (head, tail) =>
      match py_lstrip "/" head with
      | EmptyString => (head, tail)
      | _ => (py_rstrip "/" head, tail)
      end
  end.

(** ** isPath *)

(** [not string], for a value that is not a list. *)
Definition falsy (v : obj) : bool :=
  match v with
  | ONone => true
  | OBool b => negb b
  | OInt z => z =? 0
  | OStr s => String.eqb s EmptyString
  | OList _ => false
  end.

Definition obj_type_name (v : obj) : string :=
  match v with
  | ONone => "NoneType"
  | OBool _ => "bool"
  | OInt z => if is_long z then "long" else "int"
  | OStr _ => "str"
  | OList _ => "list"
  end.

Definition path_error (E : env) (s : string) : exn :=
  let msg := "Path: " +:+ dquote +:+ s +:+ dquote +:+ " does not exist" in
  if ARGPARSE E then ArgumentTypeError msg else ValueError msg.

(** [depth] is the number of nested calls the interpreter still allows. *)
Fixpoint isPath (E : env) (depth : nat) (string : obj) : HM obj :=
  match depth with
  | O => raise (RuntimeError "maximum recursion depth exceeded")
  | S d =>
      match string with
      | OList l =>
          n ← list_len l;
          for_enumerate (isPath E d) l 0 n;;
          mret (OList l)
      | OStr s =>
          if falsy string then mret string
          else if str_contains "," s then
            files ← new_list (OStr <$> py_split "," (py_rstrip "]" (py_lstrip "[" s)));
            n ← list_len files;
            for_enumerate (isPath E d) files 0 n;;
            mret (OList files)
          else if negb (falsy string) && str_contains "*" s
                  && path_exists E (abspath E (fst (path_split s))) then
            r ← new_list (OStr <$> glob E (abspath E (fst (path_split s)) +:+ sep
                                             +:+ snd (path_split s)));
            mret (OList r)
          else if negb (falsy string) && negb (str_contains "*" s)
                  && path_exists E (abspath E s) then
            if isdir E (abspath E s) then mret (OStr (abspath E s +:+ sep))
            else mret (OStr (abspath E s))
          else raise (path_error E s)
      | _ =>
          if falsy string then mret string
          else raise (TypeError ("argument of type '" +:+ obj_type_name string
                                   +:+ "' is not iterable"))
      end
  end.

(** An example file system: a working directory [/home/user] holding
    [run.py], and a directory [/data] holding [a.txt] and [b.txt]. *)
Definition demo_env : env := {|
  ARGPARSE := true;
  abspath := fun p =>
    let q := if String.prefix "/" p then p else "/home/user/" +:+ p in
    match py_rstrip "/" q with
    | EmptyString => "/"
    | r => r
    end;
  path_exists := fun p =>
    bool_decide (p ∈ ["/"; "/home"; "/home/user"; "/home/user/run.py";
                      "/data"; "/data/a.txt"; "/data/b.txt"]);
  isdir := fun p => bool_decide (p ∈ ["/"; "/home"; "/home/user"; "/data"]);
  glob := fun pattern =>
    if String.eqb pattern "/data/*.txt" then ["/data/a.txt"; "/data/b.txt"] else []
|}.

(** ** Option parsers *)

(** What [add_argument] (argparse) and [add_option] (optparse) are given:
    the flags and the keywords [default], [help], [action], [type] and
    [dest]. *)
Inductive arg_type : Type := IntType | FloatType | StrType.
Inductive arg_action : Type := StoreTrue.

Record argument : Type := Argument {
  option_strings : list string;
  arg_default : pyval;
  arg_help : string;
  arg_action_of : option arg_action;
  arg_type_of : option arg_type;
  arg_dest : string
}.

(** Computations on a parser or group object [G] that may raise; the
    object keeps what was done to it before the exception. *)
Definition SM (G A : Type) : Type := G -> result A * G.

Definition sm_ret {G A} (a : A) : SM G A := fun g => (Ok a, g).
Definition sm_bind {G A B} (m : SM G A) (f : A -> SM G B) : SM G B :=
  fun g => match m g with
           | (Ok a, g') => f a g'
           | (Err e, g') => (Err e, g')
           end.
Definition sm_lift {G A} (r : result A) : SM G A := fun g => (r, g).

(** [group.add_argument(...)] or [group.add_option(...)]: the library
    registers the option in the object, or raises. *)
Definition adder (G : Type) : Type := argument -> SM G unit.

(** ** parser_group *)

(** Both branches make the same nine calls, on [add_argument] when
    [ARGPARSE] holds and on [add_option] otherwise. *)
Definition parser_group {G} (ARGPARSE : bool) (add_argument add_option : adder G)
    (module_name : pyval)
    (default_nodes default_ppn default_pmem default_walltime default_queue : pyval)
    : SM G unit :=
  let add := if ARGPARSE then add_argument else add_option in
  sm_bind (sm_lift (str_add "Flag to set " module_name)) (fun help =>
  sm_bind (add (Argument ["-q"; "--qsub"; "--pbs"] (VBool false)
                  (help +:+ " to submit to cluster") (Some StoreTrue) None "qsub"))
          (fun _ =>
  sm_bind (add (Argument ["--nodes"] default_nodes
                  ("Set number of nodes to use for job submission. [default="
                     +:+ py_str default_nodes +:+ "]")
                  None (Some IntType) "qsub_nodes")) (fun _ =>
  sm_bind (add (Argument ["--ppn"] default_ppn
                  ("Set ppn to use for job submission. [default="
                     +:+ py_str default_ppn +:+ "]")
                  None (Some IntType) "qsub_ppn")) (fun _ =>
  sm_bind (add (Argument ["--pmem"] default_pmem
                  ("Set pmem (Gb) to use for job submission.  [default="
                     +:+ py_str default_pmem +:+ "Gb]")
                  None (Some FloatType) "qsub_pmem")) (fun _ =>
  sm_bind (add (Argument ["--email"] (VBool false) "Set user email address."
                  None (Some StrType) "qsub_M")) (fun _ =>
  sm_bind (add (Argument ["--emailoptions"] (VStr "bae")
                  "Set PBS -m mail options. Requires email address using -M. [default=bae]"
                  None (Some StrType) "qsub_m")) (fun _ =>
  sm_bind (sm_lift (str_add "Set PBS -N job name options. [default=" module_name))
          (fun help =>
  sm_bind (add (Argument ["--name"] module_name (help +:+ "]")
                  None (Some StrType) "qsub_N")) (fun _ =>
  sm_bind (sm_lift (str_add "Set PBS maximum wall time. Needs to be of the form HH:MM:SS. [default="
                            default_walltime)) (fun help =>
  sm_bind (add (Argument ["--walltime"] default_walltime (help +:+ "]")
                  None (Some StrType) "qsub_walltime")) (fun _ =>
  sm_bind (sm_lift (str_add "Set PBS -q Queue options. [default=" default_queue))
          (fun help =>
  add (Argument ["--queue"] default_queue (help +:+ "]")
         None (Some StrType) "qsub_q"))))))))))))).

(** ** The command line: __run__ *)

(** [d[key] = v]. *)
Fixpoint dict_set {V} (key : string) (v : V) (d : dict V) : dict V :=
  match d with
  | [] => [(key, v)]
  | (k, x) :: d' =>
      if String.eqb k key then (k, v) :: d' else (k, x) :: dict_set key v d'
  end.

(** [parser.parse_known_args(args)]: the namespace as a dictionary and
    the arguments left over, or the exit of the parser (help, usage
    error). *)
Inductive parse_result : Type :=
| Parsed (options : dict pyval) (unknown : list string)
| Exit (code : Z).

(** How [__run__] ends before it calls submit, if it does. *)
Inductive entry_exn : Type :=
| NameError (msg : string)
| SystemExit (code : Z)
| Raised (e : exn).

Inductive entry : Type :=
| Stop (e : entry_exn)
| Run (p : prog Z).

(** [new_parser] is the parser as constructed; a group shares the options
    of its parser.  Without argparse the constructor of the parser is
    given [description+argparsedescription], two names defined nowhere. *)
Definition __run__ {G} (ARGPARSE : bool) (new_parser : G)
    (add_argument add_option : adder G)
    (parse_known_args : G -> list string -> parse_result)
    (sys_argv inputArgs : list string) : entry :=
  let parsed : entry_exn + dict pyval :=
    if ARGPARSE then
      match
        sm_bind (add_argument (Argument ["-j"; "--job_string"] (VBool false)
                                 "job_string to submit to cluster" None (Some StrType)
                                 "job_string")) (fun _ =>
        sm_bind (add_argument (Argument ["-m"; "--module_name"] (VBool false)
                                 "module_name to submit to cluster" None (Some StrType)
                                 "module_name")) (fun _ =>
        parser_group ARGPARSE add_argument add_option (VStr "pyqsub")
                     (VInt 1) (VInt 8) (VInt 1) (VStr "24:00:00") (VStr "auto")))
        new_parser
      with
      | (Err e, _) => inl (Raised e)
      | (Ok _, parser) =>
          match parse_known_args parser
                  (match inputArgs with [] => sys_argv | _ => inputArgs end) with
          | Exit code => inl (SystemExit code)
          | Parsed options unknown =>
              inr (dict_set "unknown" (VStr (py_join " " unknown)) options)
          end
      end
    else inl (NameError "global name 'description' is not defined") in
  match parsed with
  | inl e => Stop e
  | inr options =>
      let options := dict_set "qsub" (VBool true) options in
      match getitem options "module_name" with
      | Err e => Stop (Raised e)
      | Ok module_name =>
          match (if truthy module_name then
                   v ← getitem options "module_name";
                   Ok (dict_set "qsub_N" v options)
                 else Ok options) with
          | Err e => Stop (Raised e)
          | Ok options =>
              match getitem options "qsub_N" with
              | Err e => Stop (Raised e)
              | Ok qsub_N =>
                  match getitem options "job_string" with
                  | Err e => Stop (Raised e)
                  | Ok job_string =>
                      Run (submit options [("unknown", EmptyString)] qsub_N job_string ",")
                  end
              end
          end
      end
  end.

(** A group that records what is registered, in order. *)
Definition record_option : adder (list argument) :=
  fun a g => (Ok tt, g ++ [a]).

(** ** Specifications, in the words of the documentation *)

(** The keys the option string has a token for: the keys of [options], in
    its order, that do not contain [qsub], are in the flag map, and are
    not [False] under a flag that is not empty. *)
Definition emits (options : dict pyval) (options_map : dict string) (key : string) : bool :=
  negb (str_contains "qsub" key) &&
  match dict_get key options_map, dict_get key options with
  | Some flag, Some (VBool false) => (String.length flag =? 0)%nat
  | Some _, Some _ => true
  | _, _ => false
  end.

(** The keys with a token as the specification counts them: the keys of
    the flag map, in its order, that are options and do not start with
    [qsub]. *)
Definition stated_keys (options : dict pyval) (options_map : dict string) : list string :=
  filter (fun key => negb (String.prefix "qsub" key)
                     && bool_decide (is_Some (dict_get key options)))
         (keys options_map).

(** The keys the option string cannot be built for: the keys of [options]
    that do not contain [qsub] and hold, under a flag that is not empty, a
    list with an item that is not a string. *)
Definition is_str (v : pyval) : bool :=
  match v with
  | VStr _ => true
  | _ => false
  end.

Definition unjoinable (options : dict pyval) (options_map : dict string) (key : string)
    : bool :=
  negb (str_contains "qsub" key) &&
  match dict_get key options_map, dict_get key options with
  | Some flag, Some (VList l) => negb (String.length flag =? 0)%nat && negb (forallb is_str l)
  | _, _ => false
  end.

(** The token of a value under a flag, by the shape of the value. *)
Definition spec_rendering (flag : string) (v : pyval) (list_delimiter : string)
    : result (list string) :=
  if (String.length flag =? 0)%nat then Ok [py_str v]
  else match v with
       | VList l =>
           joined ← join_method list_delimiter l;
           Ok [flag +:+ "=" +:+ joined]
       | VBool true => Ok [flag]
       | VBool false => Ok []
       | _ => Ok [flag +:+ "=" +:+ py_str v]
       end.

(** What one turn of the loop appends for [key], and what the turns for
    a list of keys append. *)
Definition turn (options : dict pyval) (options_map : dict string)
    (list_delimiter : string) (key : string) : result (list string) :=
  if str_contains "qsub" key then Ok []
  else match dict_get key options_map, dict_get key options with
       | Some flag, Some v => spec_rendering flag v list_delimiter
       | _, _ => Ok []
       end.

Fixpoint turns (options : dict pyval) (options_map : dict string)
    (list_delimiter : string) (ks : list string) : result (list string) :=
  match ks with
  | [] => Ok []
  | key :: ks' =>
      t ← turn options options_map list_delimiter key;
      ts ← turns options options_map list_delimiter ks';
      Ok (t ++ ts)
  end.

(** The first line of a text. *)
Definition first_line (s : string) : string := item0 (py_split "010" s).

(** The job identifier as the specification describes it: the token before
    the first [.] in the first line of the output, trailing newlines
    trimmed. *)
Definition spec_job_id (out : string) : string :=
  item0 (py_split "." (first_line (py_rstrip "010" out))).

(** The calls of a submission that goes through, for a job name, a script
    and the output of qsub. *)
Definition submission_trace (name script out : string) : list event :=
  [ Event (SysPrint ("Script:" +:+ nl +:+ "===============" +:+ nl +:+ nl +:+ script))
          (Ok tt);
    Event (SysWrite (name +:+ "_temp.pbs") script) (Ok tt);
    Event (SysChmod (name +:+ "_temp.pbs") 511) (Ok tt);
    Event (SysPopen ["qsub"; name +:+ "_temp.pbs"]) (Ok out);
    Event (SysPrint (nl +:+ "===============" +:+ nl +:+ "Submitted job: " +:+ out))
          (Ok tt);
    Event (SysRename (name +:+ "_temp.pbs") (name +:+ ".p" +:+ job_id out)) (Ok tt) ].

(** Options as [parser_group] registers them, for a module [foo]. *)
Definition demo_options : dict pyval :=
  [ ("qsub", VBool true); ("qsub_nodes", VInt 1); ("qsub_ppn", VInt 8);
    ("qsub_pmem", VInt 2); ("qsub_M", VBool false); ("qsub_m", VStr "bae");
    ("qsub_N", VStr "foo"); ("qsub_walltime", VStr "24:00:00");
    ("qsub_q", VStr "auto"); ("verbose", VBool true) ].

Definition demo_options_map : dict string := [("verbose", "--verbose")].

(** The script up to the resource line (lines 126 and 127), the memory
    directive (lines 128 and 129) and the script from the queue line on
    (lines 130 to 138). *)
Definition script_head (options : dict pyval) (module_name : pyval) : result string :=
  mn ← split_method module_name ".";
  qsub_N ← getitem options "qsub_N";
  qsub_walltime ← getitem options "qsub_walltime";
  qsub_nodes ← getitem options "qsub_nodes";
  qsub_ppn ← getitem options "qsub_ppn";
  Ok ("#!/bin/bash" +:+ nl +:+ "##" +:+ item0 mn +:+ " qsub script" +:+ nl +:+
      "#PBS -S /bin/sh" +:+ nl +:+ "#PBS -N " +:+ py_str qsub_N +:+ nl +:+
      "#PBS -l walltime=" +:+ py_str qsub_walltime +:+ nl +:+
      "#PBS -V" +:+ nl +:+ "#PBS -l nodes=" +:+ py_str qsub_nodes +:+
      ":ppn=" +:+ py_str qsub_ppn +:+ nl).

Definition pmem_directive (options : dict pyval) : result string :=
  qsub_pmem ← getitem options "qsub_pmem";
  if truthy qsub_pmem then
    pmem ← getitem options "qsub_pmem";
    gb ← py_int pmem;
    Ok ("#PBS -l pmem=" +:+ str_of_Z gb +:+ "Gb" +:+ nl)
  else Ok EmptyString.

Definition script_tail (options : dict pyval) (module_name job_string : pyval)
    (optstr : string) : result string :=
  qsub_q ← getitem options "qsub_q";
  line ← str_add "#PBS -q " qsub_q;
  qsub_M ← getitem options "qsub_M";
  mail ←
    (if truthy qsub_M then
       address ← getitem options "qsub_M";
       line ← str_add "#PBS -M " address;
       qsub_m ← getitem options "qsub_m";
       line ← str_add (line +:+ nl +:+ "#PBS -m ") qsub_m;
       Ok (line +:+ nl)
     else Ok EmptyString);
  payload ←
    (if truthy job_string then str_add EmptyString job_string
     else
       mpi ←
         (if truthy (dict_get_default options "qsub_mpi" (VBool false)) then
            qsub_nodes ← getitem options "qsub_nodes";
            qsub_ppn ← getitem options "qsub_ppn";
            default ← py_mul qsub_nodes qsub_ppn;
            let np := dict_get_default options "qsub_np" default in
            Ok ("mpirun -n " +:+ py_str np +:+ " ")
          else Ok EmptyString);
       mn1 ← split_method module_name ".";
       mn2 ← split_method module_name ".";
       Ok (mpi +:+ "python -c " +:+ dquote +:+ "import " +:+ item0 mn1 +:+ "; "
             +:+ item0 mn2 +:+ ".__run__()" +:+ dquote +:+ " " +:+ optstr +:+ nl));
  Ok (line +:+ nl +:+ mail +:+ payload).

(** The same options with no memory asked for, and with the memory key
    missing. *)
Definition demo_options_pmem0 : dict pyval :=
  [ ("qsub", VBool true); ("qsub_nodes", VInt 1); ("qsub_ppn", VInt 8);
    ("qsub_pmem", VInt 0); ("qsub_M", VBool false); ("qsub_m", VStr "bae");
    ("qsub_N", VStr "foo"); ("qsub_walltime", VStr "24:00:00");
    ("qsub_q", VStr "auto"); ("verbose", VBool true) ].

Definition demo_options_no_pmem : dict pyval :=
  [ ("qsub", VBool true); ("qsub_nodes", VInt 1); ("qsub_ppn", VInt 8);
    ("qsub_M", VBool false); ("qsub_m", VStr "bae");
    ("qsub_N", VStr "foo"); ("qsub_walltime", VStr "24:00:00");
    ("qsub_q", VStr "auto"); ("verbose", VBool true) ].

(** ** The path normaliser, in the words of the specification *)

(** What a normalised value looks like: a string or a list. *)
Inductive tree : Type :=
| TStr (s : string)
| TList (ts : list tree).

(** A value read back from the store, lists nested at most [n] deep. *)
Fixpoint read_tree (n : nat) (h : heap) (v : obj) : option tree :=
  match v with
  | OStr s => Some (TStr s)
  | OList l =>
      match n with
      | O => None
      | S n' => xs ← h !! l; TList <$> mapM (read_tree n' h) xs
      end
  | _ => None
  end.

(** A string with no list delimiter: (1) empty, it is returned as it is;
    (3) with a wildcard and an existing directory, the matching paths;
    (4) naming an existing entry, its absolute path, a directory with a
    trailing separator; (5) otherwise the invalid-path error. *)
Definition spec_normalize_part (E : env) (s : string) : result tree :=
  if String.eqb s EmptyString then Ok (TStr EmptyString)
  else if str_contains "*" s then
    if path_exists E (abspath E (fst (path_split s)))
    then Ok (TList (TStr <$> glob E (abspath E (fst (path_split s)) +:+ sep
                                       +:+ snd (path_split s))))
    else Err (path_error E s)
  else if path_exists E (abspath E s) then
    Ok (TStr (if isdir E (abspath E s) then abspath E s +:+ sep else abspath E s))
  else Err (path_error E s).

(** (2) A string with a list delimiter: the parts between the delimiters,
    once leading [[] and trailing []] are stripped, each normalised, in
    order. *)
Definition spec_isPath (E : env) (s : string) : result tree :=
  if String.eqb s EmptyString then Ok (TStr EmptyString)
  else if str_contains "," s then
    TList <$> mapM (spec_normalize_part E)
                   (py_split "," (py_rstrip "]" (py_lstrip "[" s)))
  else spec_normalize_part E s.

(** The same with the string split on its delimiters as it stands. *)
Definition spec_isPath_stated (E : env) (s : string) : result tree :=
  if String.eqb s EmptyString then Ok (TStr EmptyString)
  else if str_contains "," s then
    TList <$> mapM (spec_normalize_part E) (py_split "," s)
  else spec_normalize_part E s.

(** [f] on the string [s] computes [g s]: the value it returns reads as
    [g s] from the lists the call has made, and the lists there were are
    as they were. *)
Definition realises (f : obj -> HM obj) (g : string -> result tree) (n : nat)
    (s : string) : Prop :=
  ∀ h : heap,
    match g s with
    | Ok t => ∃ v h', f (OStr s) h = (Ok v, h') ∧ h ⊆ h'
                      ∧ read_tree n (h' ∖ h) v = Some t
    | Err e => ∃ h', f (OStr s) h = (Err e, h') ∧ h ⊆ h'
    end.

(** All lists but the one at [l0] are as they were. *)
Definition frame_except (l0 : loc) (h h' : heap) : Prop :=
  ∀ l, l ≠ l0 → ∀ xs, h !! l = Some xs → h' !! l = Some xs.

(** ** Further example options *)

(** The options of [demo_options] without the mail events, and with a
    mail address. *)
Definition demo_options_no_events : dict pyval :=
  [ ("qsub", VBool true); ("qsub_nodes", VInt 1); ("qsub_ppn", VInt 8);
    ("qsub_pmem", VInt 2); ("qsub_M", VBool false);
    ("qsub_N", VStr "foo"); ("qsub_walltime", VStr "24:00:00");
    ("qsub_q", VStr "auto"); ("verbose", VBool true) ].

Definition demo_options_mail : dict pyval :=
  [ ("qsub", VBool true); ("qsub_nodes", VInt 1); ("qsub_ppn", VInt 8);
    ("qsub_pmem", VInt 2); ("qsub_M", VStr "me@example.org"); ("qsub_m", VStr "bae");
    ("qsub_N", VStr "foo"); ("qsub_walltime", VStr "24:00:00");
    ("qsub_q", VStr "auto"); ("verbose", VBool true) ].

(** The options of [demo_options] for an MPI program on two nodes. *)
Definition demo_options_mpi : dict pyval :=
  [ ("qsub", VBool true); ("qsub_nodes", VInt 2); ("qsub_ppn", VInt 8);
    ("qsub_pmem", VInt 2); ("qsub_M", VBool false); ("qsub_m", VStr "bae");
    ("qsub_N", VStr "foo"); ("qsub_walltime", VStr "24:00:00");
    ("qsub_q", VStr "auto"); ("qsub_mpi", VBool true); ("verbose", VBool true) ].

(** The options of [demo_options] with a number for job name. *)
Definition demo_options_numbered : dict pyval :=
  [ ("qsub", VBool true); ("qsub_nodes", VInt 1); ("qsub_ppn", VInt 8);
    ("qsub_pmem", VInt 2); ("qsub_M", VBool false); ("qsub_m", VStr "bae");
    ("qsub_N", VInt 7); ("qsub_walltime", VStr "24:00:00");
    ("qsub_q", VStr "auto"); ("verbose", VBool true) ].

(** The options of [demo_options] for a program that takes a list of
    files. *)
Definition demo_options_files : dict pyval :=
  [ ("qsub", VBool true); ("qsub_nodes", VInt 1); ("qsub_ppn", VInt 8);
    ("qsub_pmem", VInt 2); ("qsub_M", VBool false); ("qsub_m", VStr "bae");
    ("qsub_N", VStr "foo"); ("qsub_walltime", VStr "24:00:00");
    ("qsub_q", VStr "auto"); ("files", VList [VStr "a.txt"; VStr "b.txt"]) ].

(** The keys of the options a script with a job string is rendered
    from. *)
Definition job_string_keys : list string :=
  ["qsub_N"; "qsub_walltime"; "qsub_nodes"; "qsub_ppn"; "qsub_pmem"; "qsub_q"; "qsub_M";
   "qsub_m"].



(** Every list of [h] is still in [h'], with as many elements. *)
Definition keeps_lists (h h' : heap) : Prop :=
  ∀ l xs, h !! l = Some xs → ∃ xs', h' !! l = Some xs' ∧ length xs' = length xs.

(** The namespace of a command line that sets none of the options
    registered: each [dest] with its [default] (the parsers convert a
    default only if it is a string, and [str] leaves a string as it
    is). *)
Definition namespace_defaults (g : list argument) : dict pyval :=
  map (fun a => (arg_dest a, arg_default a)) g.






(** * Proofs *)

(** ** Dictionaries: lookups *)



Lemma dict_get_Some_elem {V} (key : string) (d : dict V) :
  key ∈ keys d → is_Some (dict_get key d).
Proof.
  induction d as [| [k v] d IH]; simpl.
  - intros H. by apply elem_of_nil in H.
  - intros H. destruct (String.eqb_spec k key) as [-> | Hne]; [eauto |].
    apply elem_of_cons in H as [-> | H]; [contradiction | auto].
Qed.



(** ** make_optstr: joining a list *)



Lemma join_items_not_str (i : nat) (l : list pyval) :
  forallb is_str l = false → ∃ msg, join_items i l = Err (TypeError msg).
Proof.
  revert i. induction l as [| v l IH]; intros i; cbn [forallb join_items]; [discriminate |].
  destruct v as [| b | z | s | l']; cbn [is_str andb]; try (intros _; by eexists).
  intros Hl. destruct (IH (S i) Hl) as [msg ->]. by exists msg.
Qed.

Lemma forallb_is_str_strs (ss : list string) : forallb is_str (VStr <$> ss) = true.
Proof. induction ss as [| s ss IH]; [done |]. rewrite fmap_cons. exact IH. Qed.



Lemma join_method_not_str (sep : string) (l : list pyval) :
  forallb is_str l = false → ∃ msg, join_method sep l = Err (TypeError msg).
Proof.
  intros H. unfold join_method. destruct (join_items_not_str 0 l H) as [msg ->].
  by exists msg.
Qed.

Lemma join_items_is_str (i : nat) (l : list pyval) :
  forallb is_str l = true → ∃ ss, join_items i l = Ok ss.
Proof.
  revert i. induction l as [| v l IH]; intros i; cbn [forallb join_items]; [by eexists |].
  destruct v as [| b | z | s | l']; cbn [is_str andb]; try discriminate.
  intros Hl. destruct (IH (S i) Hl) as [ss ->]. by eexists.
Qed.

Lemma join_method_is_str (sep : string) (l : list pyval) :
  forallb is_str l = true → ∃ joined, join_method sep l = Ok joined.
Proof.
  intros H. unfold join_method. destruct (join_items_is_str 0 l H) as [ss ->].
  by eexists.
Qed.

(** ** make_optstr: the loop *)

Lemma optstr_step_turn options options_map list_delimiter optstr key :
  is_Some (dict_get key options) →
  optstr_step options options_map list_delimiter optstr key
  = (t ← turn options options_map list_delimiter key; Ok (optstr ++ t)).
Proof.
  intros [v Hv]. unfold optstr_step, turn, getitem, spec_rendering.
  destruct (str_contains "qsub" key); cbn [mbind result_bind]; [by rewrite app_nil_r |].
  destruct (dict_get key options_map) as [flag |]; cbn [mbind result_bind];
    [| by rewrite app_nil_r].
  rewrite Hv. cbn [mbind result_bind].
  destruct (String.length flag =? 0)%nat; [done |].
  destruct v as [| [] | | | l]; cbn [mbind result_bind]; rewrite ?app_nil_r; try done.
  by destruct (join_method list_delimiter l).
Qed.

Lemma optstr_loop_turns options options_map list_delimiter ks optstr :
  Forall (fun key => is_Some (dict_get key options)) ks →
  optstr_loop options options_map list_delimiter ks optstr
  = (ts ← turns options options_map list_delimiter ks; Ok (optstr ++ ts)).
Proof.
  intros Hks. revert optstr.
  induction Hks as [| key ks Hkey _ IH]; intros optstr; cbn [optstr_loop turns].
  - cbn [mbind result_bind]. by rewrite app_nil_r.
  - rewrite optstr_step_turn by done.
    destruct (turn options options_map list_delimiter key) as [t | e];
      cbn [mbind result_bind]; [| done].
    rewrite IH.
    destruct (turns options options_map list_delimiter ks) as [ts | e];
      cbn [mbind result_bind]; [| done].
    by rewrite app_assoc.
Qed.

Lemma keys_all_Some {V} (d : dict V) :
  Forall (fun key => is_Some (dict_get key d)) (keys d).
Proof. apply Forall_forall. intros key. apply dict_get_Some_elem. Qed.

Lemma make_optstr_tokens_turns options options_map list_delimiter :
  make_optstr_tokens options options_map list_delimiter
  = turns options options_map list_delimiter (keys options).
Proof.
  unfold make_optstr_tokens. rewrite optstr_loop_turns by apply keys_all_Some.
  by destruct (turns options options_map list_delimiter (keys options)).
Qed.

(** make_optstr is the join of the turns of its loop. *)
Lemma make_optstr_turns options options_map list_delimiter :
  make_optstr options options_map list_delimiter
  = (ts ← turns options options_map list_delimiter (keys options);
     Ok (py_join " " ts)).
Proof. unfold make_optstr. by rewrite make_optstr_tokens_turns. Qed.

Lemma turn_emits options options_map list_delimiter key :
  is_Some (dict_get key options) →
  if unjoinable options options_map key
  then ∃ msg, turn options options_map list_delimiter key = Err (TypeError msg)
  else if emits options options_map key
       then ∃ token, turn options options_map list_delimiter key = Ok [token]
       else turn options options_map list_delimiter key = Ok [].
Proof.
  intros [v Hv]. unfold unjoinable, emits, turn, spec_rendering. rewrite Hv.
  destruct (str_contains "qsub" key); cbn [negb andb]; [done |].
  destruct (dict_get key options_map) as [flag |]; [| done].
  destruct (String.length flag =? 0)%nat; cbn [negb andb].
  - destruct v as [| [] | | | l]; eauto.
  - destruct v as [| [] | | | l]; eauto.
    destruct (forallb is_str l) eqn:Hl; cbn [negb].
    + destruct (join_method_is_str list_delimiter l Hl) as [joined ->].
      cbn [mbind result_bind]. eauto.
    + destruct (join_method_not_str list_delimiter l Hl) as [msg ->].
      cbn [mbind result_bind]. eauto.
Qed.

Lemma turns_tokens options options_map list_delimiter ks :
  Forall (fun key => is_Some (dict_get key options)) ks →
  existsb (unjoinable options options_map) ks = false →
  ∃ tokens,
    turns options options_map list_delimiter ks = Ok tokens
    ∧ Forall2 (fun key token =>
                 optstr_step options options_map list_delimiter [] key = Ok [token])
              (filter (fun key => emits options options_map key = true) ks)
              tokens.
Proof.
  induction 1 as [| key ks Hkey _ IH]; cbn [existsb turns].
  - intros _. exists []. split; [done | constructor].
  - intros Hex. apply orb_false_iff in Hex as [Hkey' Hks].
    destruct (IH Hks) as (tokens & Hts & HF).
    pose proof (turn_emits options options_map list_delimiter key Hkey) as Ht.
    rewrite Hkey' in Ht. rewrite filter_cons.
    destruct (emits options options_map key) eqn:He.
    + destruct Ht as [token Ht]. rewrite Ht, Hts. cbn [mbind result_bind].
      exists (token :: tokens). split; [done |].
      rewrite decide_True by done. constructor; [| done].
      rewrite optstr_step_turn by done. by rewrite Ht.
    + rewrite Ht, Hts. cbn [mbind result_bind]. exists tokens. split; [done |].
      by rewrite decide_False by done.
Qed.

Lemma turns_raise options options_map list_delimiter ks :
  Forall (fun key => is_Some (dict_get key options)) ks →
  existsb (unjoinable options options_map) ks = true →
  ∃ msg, turns options options_map list_delimiter ks = Err (TypeError msg).
Proof.
  induction 1 as [| key ks Hkey _ IH]; cbn [existsb turns]; [discriminate |].
  intros Hex.
  pose proof (turn_emits options options_map list_delimiter key Hkey) as Ht.
  destruct (unjoinable options options_map key).
  - destruct Ht as [msg ->]. by exists msg.
  - destruct (IH Hex) as [msg ->].
    destruct (emits options options_map key); [destruct Ht as [token ->] | rewrite Ht];
      by exists msg.
Qed.

Lemma turn_ext o1 o2 options_map list_delimiter key :
  dict_get key o1 = dict_get key o2 →
  turn o1 options_map list_delimiter key = turn o2 options_map list_delimiter key.
Proof. intros H. unfold turn. by rewrite H. Qed.



(** C1 (as amended): make_optstr returns exactly when no key that is
    rendered under a non-empty flag holds a list with an item that is not
    a string; on such a key [list_delimiter.join] raises TypeError.  When
    it returns, its result is the tokens joined by single spaces, one
    token per key of [options] that does not contain "qsub", is in the flag
    map and is not False under a non-empty flag, in the iteration order of
    [options]; a key containing "qsub" or absent from the flag map adds
    nothing. *)
Theorem make_optstr_one_token_per_emitting_key
    (options : dict pyval) (options_map : dict string) (list_delimiter : string) :
  (if existsb (unjoinable options options_map) (keys options)
   then ∃ msg, make_optstr options options_map list_delimiter = Err (TypeError msg)
   else ∃ tokens : list string,
     make_optstr_tokens options options_map list_delimiter = Ok tokens
     ∧ make_optstr options options_map list_delimiter = Ok (py_join " " tokens)
     ∧ Forall2 (fun key token =>
                  optstr_step options options_map list_delimiter [] key = Ok [token])
               (filter (fun key => emits options options_map key = true) (keys options))
               tokens)
  ∧ (∀ key optstr,
       str_contains "qsub" key = true ∨ dict_get key options_map = None →
       optstr_step options options_map list_delimiter optstr key = Ok optstr).
Proof.
  split.
  - rewrite make_optstr_turns, make_optstr_tokens_turns.
    destruct (existsb (unjoinable options options_map) (keys options)) eqn:Hex.
    + destruct (turns_raise options options_map list_delimiter (keys options)
                  (keys_all_Some options) Hex) as [msg ->].
      by exists msg.
    + destruct (turns_tokens options options_map list_delimiter (keys options)
                  (keys_all_Some options) Hex) as (tokens & -> & HF).
      by exists tokens.
  - intros key optstr [Hq | Hm]; unfold optstr_step.
    + by rewrite Hq.
    + rewrite Hm. by destruct (str_contains "qsub" key).
Qed.

(** C1, as the specification states it, fails: a False option under a
    flag has no token; the tokens follow the order of the options, not of
    the flag map; a key with "qsub" inside, not in front, has no token; and
    for a list of paths with a wildcard among them, as isPath returns it,
    no option string is built at all. *)
Lemma make_optstr_stated_keys_counterexample :
  (stated_keys [("v", VBool false)] [("v", "--v")] = ["v"]
   ∧ make_optstr_tokens [("v", VBool false)] [("v", "--v")] "," = Ok [])
  ∧ (stated_keys [("b", VInt 1); ("a", VInt 2)] [("a", "--a"); ("b", "--b")] = ["a"; "b"]
     ∧ make_optstr_tokens [("b", VInt 1); ("a", VInt 2)] [("a", "--a"); ("b", "--b")] ","
       = Ok ["--b=1"; "--a=2"])
  ∧ (stated_keys [("use_qsub", VInt 1)] [("use_qsub", "--use")] = ["use_qsub"]
     ∧ make_optstr_tokens [("use_qsub", VInt 1)] [("use_qsub", "--use")] "," = Ok [])
  ∧ (stated_keys [("files", VList [VList [VStr "/data/a.txt"; VStr "/data/b.txt"];
                                   VStr "/home/user/run.py"])]
                 [("files", "--files")] = ["files"]
     ∧ make_optstr [("files", VList [VList [VStr "/data/a.txt"; VStr "/data/b.txt"];
                                     VStr "/home/user/run.py"])]
                   [("files", "--files")] ","
       = Err (TypeError "sequence item 0: expected string, list found")).
Proof. repeat split; vm_compute; reflexivity. Qed.




(** ** submit: the run of a call *)

Lemma str_app_cons (x : ascii) (a b : string) : String x a +:+ b = String x (a +:+ b).
Proof. reflexivity. Qed.

Lemma str_app_nil_l (a : string) : EmptyString +:+ a = a.
Proof. reflexivity. Qed.

Lemma str_app_assoc (a b c : string) : (a +:+ b) +:+ c = a +:+ (b +:+ c).
Proof. induction a as [| x a IH]; [done |]. rewrite !str_app_cons. by f_equal. Qed.

Lemma str_app_nil_r (a : string) : a +:+ EmptyString = a.
Proof. induction a as [| x a IH]; [done |]. rewrite str_app_cons. by f_equal. Qed.

Lemma add_str_Ok_inv v s r : add_str v s = Ok r → ∃ t, v = VStr t ∧ r = t +:+ s.
Proof. destruct v; simpl; intros H; inversion H; eauto. Qed.

Lemma getitem_Ok_inv {V} (d : dict V) key v : getitem d key = Ok v → dict_get key d = Some v.
Proof. unfold getitem. destruct (dict_get key d); intros H; inversion H; done. Qed.

(** A call that returns went through every system call, in order. *)
Lemma submit_ok_inv {W} (h : handler W) (w : W) options options_map
    module_name job_string list_delimiter (r : Z) :
  returned (run h (submit options options_map module_name job_string list_delimiter) w)
  = Ok r →
  ∃ name script out optstr,
    make_optstr options options_map list_delimiter = Ok optstr
    ∧ render_script options module_name job_string optstr = Ok script
    ∧ dict_get "qsub_N" options = Some (VStr name)
    ∧ r = 0
    ∧ trace (run h (submit options options_map module_name job_string list_delimiter) w)
      = submission_trace name script out.
Proof.
  unfold submit.
  destruct (negb (truthy module_name) && negb (truthy job_string)); [discriminate |].
  destruct (negb (truthy job_string) && truthy module_name
            && (length options_map =? 0)%nat); [discriminate |].
  destruct (make_optstr options options_map list_delimiter) as [optstr | e] eqn:Hopt;
    simpl; [| discriminate].
  destruct (render_script _ _ _ _) as [script | e] eqn:Hscript; simpl; [| discriminate].
  destruct (h _ (SysPrint _) w) as [[[] | e] w1]; simpl; [| discriminate].
  destruct (getitem options "qsub_N") as [qsub_N | e] eqn:HN; simpl; [| discriminate].
  destruct (add_str qsub_N "_temp.pbs") as [path | e] eqn:Hpath; simpl; [| discriminate].
  destruct (add_str_Ok_inv _ _ _ Hpath) as (name & -> & ->).
  destruct (h _ (SysWrite _ _) w1) as [[[] | e] w2]; simpl; [| discriminate].
  destruct (h _ (SysChmod _ _) w2) as [[[] | e] w3]; simpl; [| discriminate].
  destruct (h _ (SysPopen _) w3) as [[out | e] w4]; simpl; [| discriminate].
  destruct (h _ (SysPrint _) w4) as [[[] | e] w5]; simpl; [| discriminate].
  destruct (h _ (SysRename _ _) w5) as [[[] | e] w6]; simpl; [| discriminate].
  intros [= <-].
  exists name, script, out, optstr. repeat split; try done.
  - by apply getitem_Ok_inv.
  - unfold submission_trace. by rewrite str_app_assoc.
Qed.


(** ** The script, in three parts *)

Lemma render_script_parts options module_name job_string optstr :
  render_script options module_name job_string optstr
  = (a ← script_head options module_name;
     pm ← pmem_directive options;
     b ← script_tail options module_name job_string optstr;
     Ok (a +:+ pm +:+ b)).
Proof.
  unfold render_script, script_head, pmem_directive, script_tail.
  destruct (split_method module_name ".") as [mn | e]; simpl; [| done].
  destruct (getitem options "qsub_N") as [qsub_N | e]; simpl; [| done].
  destruct (getitem options "qsub_walltime") as [qsub_walltime | e]; simpl; [| done].
  destruct (getitem options "qsub_nodes") as [qsub_nodes | e]; simpl; [| done].
  destruct (getitem options "qsub_ppn") as [qsub_ppn | e]; simpl; [| done].
  destruct (getitem options "qsub_pmem") as [qsub_pmem | e]; simpl; [| done].
  destruct (truthy qsub_pmem); simpl;
    [destruct (py_int qsub_pmem) as [gb | e]; simpl; [| done] |];
    (destruct (getitem options "qsub_q") as [qsub_q | e]; simpl; [| done]);
    (destruct (str_add "#PBS -q " qsub_q) as [line | e]; simpl; [| done]);
    (destruct (getitem options "qsub_M") as [qsub_M | e]; simpl; [| done]);
    (destruct (truthy qsub_M); simpl;
     [destruct (str_add "#PBS -M " qsub_M) as [line' | e]; simpl; [| done];
      destruct (getitem options "qsub_m") as [qsub_m | e]; simpl; [| done];
      destruct (str_add _ qsub_m) as [line'' | e]; simpl; [| done] |]);
    (destruct (truthy job_string); simpl;
     [destruct job_string; simpl; try done; by rewrite ?str_app_assoc, ?str_app_nil_r |]);
    (destruct (truthy (dict_get_default options "qsub_mpi" (VBool false))); simpl;
     [destruct (py_mul qsub_nodes qsub_ppn); simpl; [| done] |]);
    by rewrite ?str_app_assoc, ?str_app_nil_r.
Qed.

(** ** The job identifier *)

Lemma item0_split_cons (c a : ascii) (s : string) :
  item0 (py_split c (String a s))
  = if Ascii.eqb a c then EmptyString else String a (item0 (py_split c s)).
Proof. simpl. destruct (Ascii.eqb a c); [done |]. by destruct (py_split c s). Qed.

Lemma contains_char_cons (d a : ascii) (t : string) :
  str_contains (String d EmptyString) (String a t)
  = Ascii.eqb d a || str_contains (String d EmptyString) t.
Proof.
  simpl. destruct (ascii_dec d a) as [-> | Hne].
  - rewrite Ascii.eqb_refl. by destruct t.
  - by apply Ascii.eqb_neq in Hne as ->.
Qed.

(** The first token of the first token: the same as the first token of the
    whole exactly when that one does not run over the inner separator. *)
Lemma first_token_nested (c d : ascii) (s : string) :
  item0 (py_split c (item0 (py_split d s))) = item0 (py_split c s)
  ↔ str_contains (String d EmptyString) (item0 (py_split c s)) = false.
Proof.
  induction s as [| a s IH]; [done |].
  rewrite !item0_split_cons.
  destruct (Ascii.eqb a c) eqn:Hac.
  - destruct (Ascii.eqb a d); [done |]. rewrite item0_split_cons, Hac. done.
  - rewrite contains_char_cons. destruct (Ascii.eqb a d) eqn:Had.
    + apply Ascii.eqb_eq in Had as ->. rewrite Ascii.eqb_refl. simpl. split; discriminate.
    + rewrite item0_split_cons, Hac.
      rewrite Ascii.eqb_sym, Had. simpl. rewrite <- IH. split; [by intros [=] | by intros ->].
Qed.

Lemma item0_split_no_sep (c : ascii) (s : string) :
  str_contains (String c EmptyString) (item0 (py_split c s)) = false.
Proof.
  induction s as [| a s IH]; [reflexivity |].
  rewrite item0_split_cons. destruct (Ascii.eqb a c) eqn:Hac; [reflexivity |].
  rewrite contains_char_cons, Ascii.eqb_sym, Hac. exact IH.
Qed.

(** The first token is the whole string, or is followed by the separator. *)
Lemma item0_split_cases (c : ascii) (s : string) :
  s = item0 (py_split c s) ∨ ∃ rest, s = item0 (py_split c s) +:+ String c rest.
Proof.
  induction s as [| a s IH]; [by left |].
  rewrite item0_split_cons. destruct (Ascii.eqb a c) eqn:Hac.
  - apply Ascii.eqb_eq in Hac as ->. right. by exists s.
  - destruct IH as [IH | [rest IH]].
    + left. by f_equal.
    + right. exists rest. rewrite str_app_cons. by f_equal.
Qed.

Lemma item0_split_sep (c : ascii) (s : string) :
  str_contains (String c EmptyString) s = true →
  ∃ rest, s = item0 (py_split c s) +:+ String c rest.
Proof.
  intros Hc. destruct (item0_split_cases c s) as [H | H]; [| done].
  pose proof (item0_split_no_sep c s) as Hn. rewrite <- H in Hn. congruence.
Qed.

Lemma item0_split_prefix (c : ascii) (s : string) :
  ∃ rest, s = item0 (py_split c s) +:+ rest.
Proof.
  destruct (item0_split_cases c s) as [H | [rest H]].
  - exists EmptyString. by rewrite str_app_nil_r.
  - by exists (String c rest).
Qed.

(** A first token that holds [c] ends before the first [d]. *)
Lemma first_token_before (c d : ascii) (s : string) :
  str_contains (String c EmptyString) (item0 (py_split d s)) = true →
  str_contains (String d EmptyString) (item0 (py_split c s)) = false.
Proof.
  induction s as [| a s IH]; [done |].
  rewrite !item0_split_cons.
  destruct (Ascii.eqb a d) eqn:Had; [done |].
  rewrite contains_char_cons.
  destruct (Ascii.eqb a c) eqn:Hac; [done |].
  rewrite (Ascii.eqb_sym c a), Hac. cbn [orb]. intros H.
  rewrite contains_char_cons, (Ascii.eqb_sym d a), Had. cbn [orb]. by apply IH.
Qed.

(** A line followed by nothing, or by a line break, is the first line. *)
Lemma item0_split_line (c : ascii) (line rest : string) :
  str_contains (String c EmptyString) line = false →
  rest = EmptyString ∨ (∃ rest', rest = String c rest') →
  item0 (py_split c (line +:+ rest)) = line.
Proof.
  intros Hline Hrest. induction line as [| a line IH].
  - destruct Hrest as [-> | [rest' ->]]; [done |].
    change (EmptyString +:+ String c rest') with (String c rest').
    by rewrite item0_split_cons, Ascii.eqb_refl.
  - rewrite contains_char_cons in Hline. apply orb_false_iff in Hline as [Hca Hline].
    rewrite str_app_cons, item0_split_cons, Ascii.eqb_sym, Hca. f_equal. by apply IH.
Qed.

(** What [rstrip] keeps and what it drops. *)
Lemma py_rstrip_repeat (c : ascii) (s : string) :
  ∃ k, s = py_rstrip c s +:+ str_repeat k (String c EmptyString).
Proof.
  induction s as [| a s [k IH]]; [by exists 0%nat |].
  cbn [py_rstrip]. destruct (py_rstrip c s) as [| b r] eqn:Hr.
  - destruct (Ascii.eqb a c) eqn:Hac.
    + apply Ascii.eqb_eq in Hac as ->. exists (S k). cbn [str_repeat].
      rewrite str_app_nil_l in IH |- *. rewrite str_app_cons, str_app_nil_l. by f_equal.
    + exists k. rewrite str_app_nil_l in IH. rewrite str_app_cons, str_app_nil_l.
      by f_equal.
  - exists k. rewrite str_app_cons. by f_equal.
Qed.

Lemma py_rstrip_no_trailing (c : ascii) (s t : string) :
  py_rstrip c s ≠ t +:+ String c EmptyString.
Proof.
  revert t. induction s as [| a s IH]; intros t; cbn [py_rstrip].
  - by destruct t.
  - destruct (py_rstrip c s) as [| b r] eqn:Hr.
    + destruct (Ascii.eqb a c) eqn:Hac; [by destruct t |].
      destruct t as [| x t]; [| by destruct t].
      intros [= ->]. by rewrite Ascii.eqb_refl in Hac.
    + destruct t as [| x t]; [done |].
      rewrite str_app_cons. intros [= -> H]. by apply (IH t).
Qed.

Lemma py_rstrip_prefix (c : ascii) (s : string) :
  ∃ rest, s = py_rstrip c s +:+ rest.
Proof. destruct (py_rstrip_repeat c s) as [k H]. by eexists. Qed.

Lemma first_line_rstrip (c : ascii) (s : string) :
  item0 (py_split c (py_rstrip c s)) = item0 (py_split c s).
Proof.
  induction s as [| a s IH]; [done |].
  cbn [py_rstrip]. rewrite (item0_split_cons c a s).
  destruct (py_rstrip c s) as [| b r] eqn:Hr.
  - destruct (Ascii.eqb a c) eqn:Hac; [done |].
    rewrite item0_split_cons, Hac. f_equal. exact IH.
  - rewrite item0_split_cons. destruct (Ascii.eqb a c); [done |]. f_equal. exact IH.
Qed.

(** The identifier is what is left of the output of qsub once its trailing
    newlines are dropped, up to the first '.' if there is one. *)
Lemma job_id_stripped (out : string) :
  ∃ stripped k,
    out = stripped +:+ str_repeat k nl
    ∧ (∀ t, stripped ≠ t +:+ nl)
    ∧ str_contains "." (job_id out) = false
    ∧ (stripped = job_id out ∨ ∃ rest, stripped = job_id out +:+ "." +:+ rest).
Proof.
  exists (py_rstrip "010" out). destruct (py_rstrip_repeat "010" out) as [k Hk].
  exists k. split; [exact Hk |]. split; [apply py_rstrip_no_trailing |].
  split; [apply item0_split_no_sep |]. apply item0_split_cases.
Qed.

(** When the first line of the output has a '.', the identifier is what
    comes before the first '.' of that line. *)
Lemma job_id_first_line (out line rest : string) :
  out = line +:+ rest →
  str_contains nl line = false →
  rest = EmptyString ∨ (∃ rest', rest = nl +:+ rest') →
  str_contains "." line = true →
  job_id out = spec_job_id out ∧ ∃ host, line = job_id out +:+ "." +:+ host.
Proof.
  intros -> Hline Hrest Hdot.
  assert (Hfirst : first_line (line +:+ rest) = line)
    by (by apply (item0_split_line "010")).
  assert (Hfirst' : first_line (py_rstrip "010" (line +:+ rest)) = line)
    by (unfold first_line; by rewrite first_line_rstrip).
  assert (Hid : job_id (line +:+ rest) = item0 (py_split "." line)).
  { unfold job_id. rewrite <- Hfirst' at 2. symmetry.
    apply (first_token_nested "." "010"), first_token_before.
    fold (first_line (py_rstrip "010" (line +:+ rest))). by rewrite Hfirst'. }
  split.
  - unfold spec_job_id. by rewrite Hfirst', Hid.
  - rewrite Hid. by apply (item0_split_sep ".").
Qed.

(** C3: a call of submit that returns has written the script to
    <job-name>_temp.pbs, run qsub on it and renamed it to
    <job-name>.p<id>.  When the first line of the output of qsub has a
    '.', <id> is the token before the first '.' of that line: "12345" for
    the output "12345.clusterhead\n".  For every output, <id> is the text
    before the first '.' of the output with all its trailing newlines
    dropped, or all of that text if it has no '.'. *)
Theorem submit_renames_script {W} (h : handler W) (w : W)
    (options : dict pyval) (options_map : dict string)
    (module_name job_string : pyval) (list_delimiter : string) (r : Z) :
  returned (run h (submit options options_map module_name job_string list_delimiter) w)
  = Ok r →
  ∃ name script out id,
    dict_get "qsub_N" options = Some (VStr name)
    ∧ trace (run h (submit options options_map module_name job_string list_delimiter) w)
      = [ Event (SysPrint ("Script:" +:+ nl +:+ "===============" +:+ nl +:+ nl +:+ script))
                (Ok tt);
          Event (SysWrite (name +:+ "_temp.pbs") script) (Ok tt);
          Event (SysChmod (name +:+ "_temp.pbs") 511) (Ok tt);
          Event (SysPopen ["qsub"; name +:+ "_temp.pbs"]) (Ok out);
          Event (SysPrint (nl +:+ "===============" +:+ nl +:+ "Submitted job: " +:+ out))
                (Ok tt);
          Event (SysRename (name +:+ "_temp.pbs") (name +:+ ".p" +:+ id)) (Ok tt) ]
    ∧ (∀ line rest,
         out = line +:+ rest →
         str_contains nl line = false →
         rest = EmptyString ∨ (∃ rest', rest = nl +:+ rest') →
         str_contains "." line = true →
         id = spec_job_id out ∧ ∃ host, line = id +:+ "." +:+ host)
    ∧ (∃ stripped k,
         out = stripped +:+ str_repeat k nl
         ∧ (∀ t, stripped ≠ t +:+ nl)
         ∧ str_contains "." id = false
         ∧ (stripped = id ∨ ∃ rest, stripped = id +:+ "." +:+ rest))
    ∧ (out = "12345.clusterhead" +:+ nl → id = "12345").
Proof.
  intros Hr.
  destruct (submit_ok_inv h w _ _ _ _ _ r Hr)
    as (name & script & out & optstr & _ & _ & HN & _ & Htr).
  exists name, script, out, (job_id out).
  split; [done |]. split; [exact Htr |].
  split; [intros line rest; apply job_id_first_line |].
  split; [apply job_id_stripped |].
  by intros ->.
Qed.

Lemma submit_renames_script_witness :
  let reply := "12345.clusterhead" +:+ nl in
  let call := submit demo_options demo_options_map (VStr "foo") (VBool false) "," in
  returned (run (mem_handler reply) call empty_world) = Ok 0
  ∧ ∃ name script out id,
      dict_get "qsub_N" demo_options = Some (VStr name)
      ∧ trace (run (mem_handler reply) call empty_world)
        = [ Event (SysPrint ("Script:" +:+ nl +:+ "===============" +:+ nl +:+ nl
                               +:+ script)) (Ok tt);
            Event (SysWrite (name +:+ "_temp.pbs") script) (Ok tt);
            Event (SysChmod (name +:+ "_temp.pbs") 511) (Ok tt);
            Event (SysPopen ["qsub"; name +:+ "_temp.pbs"]) (Ok out);
            Event (SysPrint (nl +:+ "===============" +:+ nl +:+ "Submitted job: "
                               +:+ out)) (Ok tt);
            Event (SysRename (name +:+ "_temp.pbs") (name +:+ ".p" +:+ id)) (Ok tt) ]
      ∧ (∀ line rest,
           out = line +:+ rest →
           str_contains nl line = false →
           rest = EmptyString ∨ (∃ rest', rest = nl +:+ rest') →
           str_contains "." line = true →
           id = spec_job_id out ∧ ∃ host, line = id +:+ "." +:+ host)
      ∧ (∃ stripped k,
           out = stripped +:+ str_repeat k nl
           ∧ (∀ t, stripped ≠ t +:+ nl)
           ∧ str_contains "." id = false
           ∧ (stripped = id ∨ ∃ rest, stripped = id +:+ "." +:+ rest))
      ∧ (out = "12345.clusterhead" +:+ nl → id = "12345").
Proof.
  intros reply call.
  assert (Hr : returned (run (mem_handler reply) call empty_world) = Ok 0)
    by (vm_compute; reflexivity).
  split; [exact Hr |].
  exact (submit_renames_script (mem_handler reply) empty_world demo_options
           demo_options_map (VStr "foo") (VBool false) "," 0 Hr).
Defined.

(** The run of the example: the script of module foo goes from
    foo_temp.pbs to foo.p12345. *)
Remark submit_renames_example :
  let reply := "12345.clusterhead" +:+ nl in
  last (trace (run (mem_handler reply)
                 (submit demo_options demo_options_map (VStr "foo") (VBool false) ",")
                 empty_world))
  = Some (Event (SysRename "foo_temp.pbs" "foo.p12345") (Ok tt)).
Proof. vm_compute. reflexivity. Qed.

(** Outside that format, when the first line of the output has no '.',
    the identifier runs over the line break. *)
Remark job_id_runs_over_line_break :
  let reply := "qsub: notice" +:+ nl +:+ "12345.clusterhead" +:+ nl in
  last (trace (run (mem_handler reply)
                 (submit demo_options demo_options_map (VStr "foo") (VBool false) ",")
                 empty_world))
  = Some (Event (SysRename "foo_temp.pbs" ("foo.pqsub: notice" +:+ nl +:+ "12345")) (Ok tt))
  ∧ spec_job_id reply = "qsub: notice"
  ∧ job_id reply ≠ spec_job_id reply.
Proof.
  intros reply. split; [| split].
  - vm_compute. reflexivity.
  - vm_compute. reflexivity.
  - vm_compute. discriminate.
Qed.

(** C9 (as amended): every call of submit that returns, returns 0; the job
    identifier only names the renamed script. *)
Theorem submit_returns_zero {W} (h : handler W) (w : W)
    (options : dict pyval) (options_map : dict string)
    (module_name job_string : pyval) (list_delimiter : string) (r : Z) :
  returned (run h (submit options options_map module_name job_string list_delimiter) w)
  = Ok r →
  r = 0.
Proof.
  intros Hr.
  by destruct (submit_ok_inv h w _ _ _ _ _ r Hr) as (? & ? & ? & ? & _ & _ & _ & -> & _).
Qed.

Lemma submit_returns_zero_witness :
  let reply := "12345.clusterhead" +:+ nl in
  let call := submit demo_options demo_options_map (VStr "foo") (VBool false) "," in
  returned (run (mem_handler reply) call empty_world) = Ok 0 ∧ 0 = 0.
Proof.
  intros reply call.
  assert (Hr : returned (run (mem_handler reply) call empty_world) = Ok 0)
    by (vm_compute; reflexivity).
  split; [exact Hr |].
  exact (submit_returns_zero (mem_handler reply) empty_world demo_options
           demo_options_map (VStr "foo") (VBool false) "," 0 Hr).
Defined.

(** C9, as the specification states it, fails: the call that renames the
    script to foo.p12345 returns 0, not 12345. *)
Lemma submit_return_counterexample :
  let reply := "12345.clusterhead" +:+ nl in
  let o := run (mem_handler reply)
             (submit demo_options demo_options_map (VStr "foo") (VBool false) ",")
             empty_world in
  returned o = Ok 0
  ∧ last (trace o) = Some (Event (SysRename "foo_temp.pbs" "foo.p12345") (Ok tt))
  ∧ job_id reply = "12345"
  ∧ str_of_Z 0 ≠ job_id reply.
Proof.
  intros reply o. split; [| split; [| split]].
  - vm_compute. reflexivity.
  - vm_compute. reflexivity.
  - vm_compute. reflexivity.
  - vm_compute. discriminate.
Qed.

(** C4: with neither a module name nor a job string, submit is the raise
    of the TypeError and nothing else: run on any system, it makes no call
    (nothing is rendered, printed or written) and leaves the world as it
    was. *)
Theorem submit_requires_target
    (options : dict pyval) (options_map : dict string)
    (module_name job_string : pyval) (list_delimiter : string) :
  truthy module_name = false →
  truthy job_string = false →
  submit options options_map module_name job_string list_delimiter
  = Raise (TypeError "One of module_name and job_string must be specified.")
  ∧ ∀ W (h : handler W) (w : W),
      run h (submit options options_map module_name job_string list_delimiter) w
      = Outcome (Err (TypeError "One of module_name and job_string must be specified."))
                w [].
Proof.
  intros Hm Hj. unfold submit. rewrite Hm, Hj. simpl. split; [done |]. done.
Qed.

Lemma submit_requires_target_witness :
  truthy (VBool false) = false
  ∧ truthy (VBool false) = false
  ∧ submit demo_options demo_options_map (VBool false) (VBool false) ","
    = Raise (TypeError "One of module_name and job_string must be specified.")
  ∧ ∀ W (h : handler W) (w : W),
      run h (submit demo_options demo_options_map (VBool false) (VBool false) ",") w
      = Outcome (Err (TypeError "One of module_name and job_string must be specified."))
                w [].
Proof.
  split; [reflexivity |]. split; [reflexivity |].
  apply (submit_requires_target demo_options demo_options_map (VBool false) (VBool false) ",");
    reflexivity.
Defined.

(** C5: with a module name, no job string and an empty flag map, submit
    raises UserWarning: the call ends there, on any system, with nothing
    rendered, written or submitted. *)
Theorem submit_empty_flag_map_raises :
  submit demo_options [] (VStr "foo") (VBool false) ","
  = Raise (UserWarning "job_string not specified and options_map length is 0, no option flags will be appended to the pbs script ")
  ∧ ∀ W (h : handler W) (w : W),
      trace (run h (submit demo_options [] (VStr "foo") (VBool false) ",") w) = []
      ∧ world (run h (submit demo_options [] (VStr "foo") (VBool false) ",") w) = w.
Proof. split; [reflexivity |]. intros W h w. split; reflexivity. Qed.

(** ** The module name *)

Lemma render_script_Ok_module_name options module_name job_string optstr script :
  render_script options module_name job_string optstr = Ok script →
  ∃ s, module_name = VStr s.
Proof.
  unfold render_script. destruct module_name; simpl; try discriminate. eauto.
Qed.




(** ** The memory directive *)

Lemma getitem_agree (o1 o2 : dict pyval) key :
  dict_get key o1 = dict_get key o2 → getitem o1 key = getitem o2 key.
Proof. unfold getitem. by intros ->. Qed.

Lemma script_head_agree o1 o2 module_name :
  (∀ key, key ≠ "qsub_pmem" → dict_get key o1 = dict_get key o2) →
  script_head o1 module_name = script_head o2 module_name.
Proof.
  intros H. unfold script_head.
  by rewrite !(getitem_agree o1 o2) by (by apply H).
Qed.

Lemma script_tail_agree o1 o2 module_name job_string optstr :
  (∀ key, key ≠ "qsub_pmem" → dict_get key o1 = dict_get key o2) →
  script_tail o1 module_name job_string optstr
  = script_tail o2 module_name job_string optstr.
Proof.
  intros H. unfold script_tail, dict_get_default.
  rewrite !(getitem_agree o1 o2) by (by apply H).
  by rewrite !(H "qsub_mpi"), !(H "qsub_np") by done.
Qed.

Lemma script_head_ends options module_name a :
  script_head options module_name = Ok a →
  ∃ a' nodes ppn,
    dict_get "qsub_nodes" options = Some nodes
    ∧ dict_get "qsub_ppn" options = Some ppn
    ∧ a = a' +:+ "#PBS -l nodes=" +:+ py_str nodes +:+ ":ppn=" +:+ py_str ppn +:+ nl.
Proof.
  unfold script_head.
  destruct (split_method module_name ".") as [mn | e]; simpl; [| done].
  destruct (getitem options "qsub_N") as [qsub_N | e]; simpl; [| done].
  destruct (getitem options "qsub_walltime") as [qsub_walltime | e]; simpl; [| done].
  destruct (getitem options "qsub_nodes") as [qsub_nodes | e] eqn:Hn; simpl; [| done].
  destruct (getitem options "qsub_ppn") as [qsub_ppn | e] eqn:Hp; simpl; [| done].
  intros [= <-].
  eexists ("#!/bin/bash" +:+ nl +:+ "##" +:+ item0 mn +:+ " qsub script" +:+ nl +:+
           "#PBS -S /bin/sh" +:+ nl +:+ "#PBS -N " +:+ py_str qsub_N +:+ nl +:+
           "#PBS -l walltime=" +:+ py_str qsub_walltime +:+ nl +:+ "#PBS -V" +:+ nl),
          qsub_nodes, qsub_ppn.
  split; [by apply getitem_Ok_inv |]. split; [by apply getitem_Ok_inv |].
  by rewrite !str_app_assoc.
Qed.

Lemma script_tail_starts options module_name job_string optstr b :
  script_tail options module_name job_string optstr = Ok b →
  ∃ b', b = "#PBS -q " +:+ b'.
Proof.
  unfold script_tail.
  destruct (getitem options "qsub_q") as [qsub_q | e]; simpl; [| done].
  destruct qsub_q; simpl; try done.
  destruct (getitem options "qsub_M") as [qsub_M | e]; simpl; [| done].
  match goal with |- context [mbind _ ?m] => destruct m as [mail | e]; simpl; [| done] end.
  match goal with |- context [mbind _ ?m] => destruct m as [payload | e]; simpl; [| done] end.
  intros [= <-]. eexists. by rewrite !str_app_assoc.
Qed.

(** C6 (as amended): between two option mappings that differ only in
    [qsub_pmem], 2 in one and a false value (0, False, None) in the other,
    either both scripts fail the same way or they are the same text but for
    the line "#PBS -l pmem=2Gb", which the first has right after the
    nodes line and before the queue line and the second has not.  With
    the key absent no script is rendered: submit raises (KeyError once the
    lines above are rendered). *)
Theorem render_script_pmem (o2 o0 absent : dict pyval) (v0 : pyval)
    (module_name job_string : pyval) (optstr : string) :
  dict_get "qsub_pmem" o2 = Some (VInt 2) →
  dict_get "qsub_pmem" o0 = Some v0 →
  truthy v0 = false →
  (∀ key, key ≠ "qsub_pmem" → dict_get key o2 = dict_get key o0) →
  dict_get "qsub_pmem" absent = None →
  ((∃ a b a' b' nodes ppn,
      render_script o2 module_name job_string optstr
      = Ok (a +:+ "#PBS -l pmem=2Gb" +:+ nl +:+ b)
      ∧ render_script o0 module_name job_string optstr = Ok (a +:+ b)
      ∧ dict_get "qsub_nodes" o2 = Some nodes
      ∧ dict_get "qsub_ppn" o2 = Some ppn
      ∧ a = a' +:+ "#PBS -l nodes=" +:+ py_str nodes +:+ ":ppn=" +:+ py_str ppn +:+ nl
      ∧ b = "#PBS -q " +:+ b')
   ∨ (∃ e, render_script o2 module_name job_string optstr = Err e
           ∧ render_script o0 module_name job_string optstr = Err e))
  ∧ (∃ e, render_script absent module_name job_string optstr = Err e)
  ∧ (∀ a, script_head absent module_name = Ok a →
          render_script absent module_name job_string optstr
          = Err (KeyError "qsub_pmem")).
Proof.
  intros H2 H0 Hv0 Hagree Habs. split; [| split].
  - rewrite !render_script_parts.
    rewrite <- (script_head_agree o2 o0) by done.
    rewrite <- (script_tail_agree o2 o0) by done.
    unfold pmem_directive, getitem. rewrite H2, H0. simpl. rewrite Hv0.
    destruct (script_head o2 module_name) as [a | e] eqn:Ha; simpl; [| right; eauto].
    destruct (script_tail o2 module_name job_string optstr) as [b | e] eqn:Hb; simpl;
      [| right; eauto].
    left. destruct (script_head_ends _ _ _ Ha) as (a' & nodes & ppn & Hn & Hp & Ha').
    destruct (script_tail_starts _ _ _ _ _ Hb) as (b' & Hb').
    exists a, b, a', b', nodes, ppn. repeat split; try done.
  - rewrite render_script_parts. unfold pmem_directive, getitem. rewrite Habs.
    destruct (script_head absent module_name); simpl; eauto.
  - intros a Ha. rewrite render_script_parts, Ha. unfold pmem_directive, getitem.
    by rewrite Habs.
Qed.

Lemma demo_options_agree key :
  key ≠ "qsub_pmem" → dict_get key demo_options = dict_get key demo_options_pmem0.
Proof.
  intros Hk. unfold demo_options, demo_options_pmem0. cbn [dict_get].
  repeat match goal with
         | |- context [String.eqb ?a key] =>
             destruct (String.eqb_spec a key); [first [done | congruence] |]
         end.
  done.
Defined.

Lemma render_script_pmem_witness :
  dict_get "qsub_pmem" demo_options = Some (VInt 2)
  ∧ dict_get "qsub_pmem" demo_options_pmem0 = Some (VInt 0)
  ∧ truthy (VInt 0) = false
  ∧ dict_get "qsub_pmem" demo_options_no_pmem = None
  ∧ render_script demo_options (VStr "foo") (VBool false) "--verbose"
    = Ok ("#!/bin/bash" +:+ nl +:+ "##foo qsub script" +:+ nl +:+ "#PBS -S /bin/sh" +:+ nl
          +:+ "#PBS -N foo" +:+ nl +:+ "#PBS -l walltime=24:00:00" +:+ nl
          +:+ "#PBS -V" +:+ nl +:+ "#PBS -l nodes=1:ppn=8" +:+ nl
          +:+ "#PBS -l pmem=2Gb" +:+ nl +:+ "#PBS -q auto" +:+ nl
          +:+ "python -c " +:+ dquote +:+ "import foo; foo.__run__()" +:+ dquote
          +:+ " --verbose" +:+ nl)
  ∧ (∃ e, render_script demo_options_no_pmem (VStr "foo") (VBool false) "--verbose"
          = Err e).
Proof.
  split; [reflexivity |]. split; [reflexivity |]. split; [reflexivity |].
  split; [reflexivity |]. split; [vm_compute; reflexivity |].
  apply (render_script_pmem demo_options demo_options_pmem0 demo_options_no_pmem
           (VInt 0) (VStr "foo") (VBool false) "--verbose");
    [reflexivity | reflexivity | reflexivity | apply demo_options_agree | reflexivity].
Defined.

(** C6, as the specification states it, fails for a missing key: no
    script without a memory line comes out, the call raises KeyError
    before anything is printed or written. *)
Lemma render_script_pmem_absent_counterexample :
  render_script demo_options_no_pmem (VStr "foo") (VBool false) "--verbose"
  = Err (KeyError "qsub_pmem")
  ∧ run (mem_handler ("12345.clusterhead" +:+ nl))
        (submit demo_options_no_pmem demo_options_map (VStr "foo") (VBool false) ",")
        empty_world
    = Outcome (Err (KeyError "qsub_pmem")) empty_world [].
Proof. split; vm_compute; reflexivity. Qed.

(** ** Reading values back from the store *)

Lemma read_tree_list n (h : heap) l :
  read_tree (S n) h (OList l) = (xs ← h !! l; TList <$> mapM (read_tree n h) xs).
Proof. reflexivity. Qed.

Lemma read_tree_list_Some n (h : heap) l xs ts :
  h !! l = Some xs →
  Forall2 (fun v t => read_tree n h v = Some t) xs ts →
  read_tree (S n) h (OList l) = Some (TList ts).
Proof.
  intros Hl Hts. rewrite read_tree_list, Hl. simpl.
  apply mapM_Some in Hts. by rewrite Hts.
Qed.

Lemma read_tree_list_inv n (h : heap) l t :
  read_tree (S n) h (OList l) = Some t →
  ∃ xs ts, h !! l = Some xs ∧ t = TList ts
           ∧ Forall2 (fun v t => read_tree n h v = Some t) xs ts.
Proof.
  rewrite read_tree_list. destruct (h !! l) as [xs |]; simpl; [| done].
  destruct (mapM (read_tree n h) xs) as [ts |] eqn:Hts; simpl; [| done].
  intros [= <-]. exists xs, ts. split; [done |]. split; [done |]. by apply mapM_Some.
Qed.

Lemma read_tree_mono_heap n (h h' : heap) v t :
  h ⊆ h' → read_tree n h v = Some t → read_tree n h' v = Some t.
Proof.
  intros Hsub. revert v t. induction n as [| n IH]; intros v t; destruct v; try done.
  intros H. apply read_tree_list_inv in H as (xs & ts & Hl & -> & Hts).
  apply (read_tree_list_Some _ _ _ xs); [by eapply lookup_weaken |].
  eapply Forall2_impl; [exact Hts |]. intros x y. apply IH.
Qed.

Lemma read_tree_mono_depth n (h : heap) v t :
  read_tree n h v = Some t → read_tree (S n) h v = Some t.
Proof.
  revert v t. induction n as [| n IH]; intros v t; destruct v; try done.
  intros H. apply read_tree_list_inv in H as (xs & ts & Hl & -> & Hts).
  apply (read_tree_list_Some _ _ _ xs); [done |].
  eapply Forall2_impl; [exact Hts |]. intros x y. apply IH.
Qed.

Lemma read_tree_strings n (h : heap) (ss : list string) :
  mapM (read_tree n h) (OStr <$> ss) = Some (TStr <$> ss).
Proof.
  apply mapM_Some. induction ss as [| s ss IH]; simpl; constructor; [| done].
  by destruct n.
Qed.

Lemma difference_mono (h1 h2 b1 b2 : heap) :
  h1 ⊆ h2 → b2 ⊆ b1 → h1 ∖ b1 ⊆ h2 ∖ b2.
Proof.
  intros Hh Hb. apply map_subseteq_spec. intros l xs.
  rewrite !lookup_difference_Some. intros [H1 Hn]. split.
  - by eapply lookup_weaken.
  - destruct (b2 !! l) eqn:Hb2; [| done].
    by rewrite (lookup_weaken _ _ _ _ Hb2 Hb) in Hn.
Qed.

Lemma fresh_lookup_None (h : heap) : h !! fresh (dom h) = None.
Proof. apply not_elem_of_dom, is_fresh. Qed.

(** ** isPath on a string with no list delimiter *)

Lemma py_split_no_sep (c : ascii) (s : string) :
  Forall (fun p => str_contains (String c EmptyString) p = false) (py_split c s).
Proof.
  induction s as [| a s IH]; simpl.
  - constructor; [reflexivity | constructor].
  - destruct (Ascii.eqb a c) eqn:Hac.
    + constructor; [reflexivity | exact IH].
    + destruct (py_split c s) as [| w ws].
      * constructor; [| constructor]. rewrite contains_char_cons.
        by rewrite Ascii.eqb_sym, Hac.
      * inversion IH as [| ? ? Hw Hws]; subst.
        constructor; [| exact Hws]. rewrite contains_char_cons.
        by rewrite Ascii.eqb_sym, Hac.
Qed.

Lemma isPath_part_realises E d s :
  str_contains "," s = false →
  realises (isPath E (S d)) (spec_normalize_part E) 1 s.
Proof.
  intros Hcomma h. unfold spec_normalize_part.
  cbn [isPath falsy]. rewrite Hcomma.
  destruct (String.eqb s EmptyString) eqn:Hs.
  { exists (OStr s), h. apply String.eqb_eq in Hs as ->. done. }
  cbn [negb andb].
  destruct (str_contains "*" s); cbn [negb andb].
  - destruct (path_exists E (abspath E (fst (path_split s)))).
    + eexists _, _. split; [reflexivity |].
      split; [apply insert_subseteq, fresh_lookup_None |].
      eapply read_tree_list_Some.
      * apply lookup_difference_Some. split; [apply lookup_insert_eq |].
        apply fresh_lookup_None.
      * apply mapM_Some, read_tree_strings.
    + by exists h.
  - destruct (path_exists E (abspath E s)).
    + destruct (isdir E (abspath E s)); by eexists _, h.
    + by exists h.
Qed.

(** ** The loop that normalises a list in place *)

Lemma HM_bind_Ok {A B} (m : HM A) (k : A → HM B) (h h' : heap) a :
  m h = (Ok a, h') → (m ≫= k) h = k a h'.
Proof. intros H. unfold mbind, HM_bind. by rewrite H. Qed.

Lemma HM_bind_Err {A B} (m : HM A) (k : A → HM B) (h h' : heap) e :
  m h = (Err e, h') → (m ≫= k) h = (Err e, h').
Proof. intros H. unfold mbind, HM_bind. by rewrite H. Qed.

Lemma list_getitem_middle l0 (h : heap) xs x ys :
  h !! l0 = Some (xs ++ x :: ys) → list_getitem l0 (length xs) h = (Ok x, h).
Proof.
  intros H. unfold list_getitem. rewrite H.
  by rewrite list_lookup_middle.
Qed.

Lemma list_setitem_middle l0 (h : heap) xs x y ys :
  h !! l0 = Some (xs ++ x :: ys) →
  list_setitem l0 (length xs) y h = (Ok tt, <[l0 := (xs ++ [y]) ++ ys]> h).
Proof.
  intros H. unfold list_setitem. rewrite H.
  assert (Hlt : (length xs <? length (xs ++ x :: ys))%nat = true).
  { apply Nat.ltb_lt. rewrite length_app. simpl. lia. }
  rewrite Hlt. f_equal. f_equal.
  replace (length xs) with (length xs + 0)%nat at 1 by lia.
  rewrite insert_app_r. simpl. by rewrite <- app_assoc.
Qed.

Lemma frame_except_refl l0 (h : heap) : frame_except l0 h h.
Proof. by intros l _ xs. Qed.

Lemma frame_except_step l0 (hb hi h' : heap) ys :
  frame_except l0 hb hi → hi ⊆ h' → frame_except l0 hb (<[l0 := ys]> h').
Proof.
  intros Hfr Hsub l Hl xs Hxs. rewrite lookup_insert_ne by done.
  eapply lookup_weaken; [| exact Hsub]. by apply Hfr.
Qed.

Lemma frame_except_weaken l0 (hb hi h' : heap) :
  frame_except l0 hb hi → hi ⊆ h' → frame_except l0 hb h'.
Proof.
  intros Hfr Hsub l Hl xs Hxs. eapply lookup_weaken; [| exact Hsub]. by apply Hfr.
Qed.

(** The lists made since [hb] are still there after a call on [hi] and an
    assignment into [l0], a list of [hb]. *)
Lemma difference_step_old l0 (hb hi h' : heap) ys :
  is_Some (hb !! l0) → hi ⊆ h' → hi ∖ hb ⊆ <[l0 := ys]> h' ∖ hb.
Proof.
  intros [x0 H0] Hsub. apply map_subseteq_spec. intros l xs.
  rewrite !lookup_difference_Some. intros [H1 Hn]. split; [| done].
  rewrite lookup_insert_ne by (intros ->; congruence).
  by eapply lookup_weaken.
Qed.

Lemma difference_step_new l0 (hb hi h' : heap) ys :
  frame_except l0 hb hi → is_Some (hi !! l0) →
  h' ∖ hi ⊆ <[l0 := ys]> h' ∖ hb.
Proof.
  intros Hfr [x0 H0]. apply map_subseteq_spec. intros l xs.
  rewrite !lookup_difference_Some. intros [H1 Hn].
  assert (Hl : l ≠ l0) by (intros ->; congruence).
  split; [by rewrite lookup_insert_ne |].
  destruct (hb !! l) as [zs |] eqn:Hb; [| done].
  by rewrite (Hfr l Hl zs Hb) in Hn.
Qed.

Lemma for_enumerate_realises f g n l0 (hb : heap) :
  is_Some (hb !! l0) →
  ∀ ss done_vs done_ts (hi : heap),
    Forall (realises f g n) ss →
    frame_except l0 hb hi →
    hi !! l0 = Some (done_vs ++ (OStr <$> ss)) →
    Forall2 (fun v t => read_tree n (hi ∖ hb) v = Some t) done_vs done_ts →
    match mapM g ss with
    | Ok ts =>
        ∃ vs (hF : heap),
          for_enumerate f l0 (length done_vs) (length ss) hi = (Ok tt, hF)
          ∧ hF !! l0 = Some (done_vs ++ vs)
          ∧ Forall2 (fun v t => read_tree n (hF ∖ hb) v = Some t)
                    (done_vs ++ vs) (done_ts ++ ts)
          ∧ frame_except l0 hb hF
    | Err e =>
        ∃ hF : heap,
          for_enumerate f l0 (length done_vs) (length ss) hi = (Err e, hF)
          ∧ frame_except l0 hb hF
    end.
Proof.
  intros Hl0 ss. induction ss as [| s ss IH]; intros done_vs done_ts hi Hss Hfr Hi Hdone.
  - simpl. exists [], hi. rewrite !app_nil_r. simpl in Hi. rewrite app_nil_r in Hi. done.
  - apply Forall_cons in Hss as [Hs Hss]. simpl in Hi.
    cbn [for_enumerate length].
    rewrite (HM_bind_Ok _ _ _ _ _ (list_getitem_middle _ _ _ _ _ Hi)).
    specialize (Hs hi).
    change (mapM g (s :: ss)) with (y ← g s; k ← mapM g ss; mret (y :: k)).
    destruct (g s) as [t | e].
    + destruct Hs as (v & h' & Hf & Hsub & Hv).
      rewrite (HM_bind_Ok _ _ _ _ _ Hf).
      pose proof (lookup_weaken _ _ _ _ Hi Hsub) as Hi'.
      rewrite (HM_bind_Ok _ _ _ _ _ (list_setitem_middle _ _ _ _ v _ Hi')).
      set (h'' := <[l0 := (done_vs ++ [v]) ++ (OStr <$> ss)]> h').
      assert (Hfr'' : frame_except l0 hb h'') by (by eapply frame_except_step).
      assert (Hi'' : h'' !! l0 = Some ((done_vs ++ [v]) ++ (OStr <$> ss)))
        by apply lookup_insert_eq.
      assert (Hdone'' : Forall2 (fun v t => read_tree n (h'' ∖ hb) v = Some t)
                                (done_vs ++ [v]) (done_ts ++ [t])).
      { apply Forall2_app.
        - eapply Forall2_impl; [exact Hdone |]. intros x y.
          apply read_tree_mono_heap. by apply difference_step_old.
        - constructor; [| constructor].
          eapply read_tree_mono_heap; [| exact Hv].
          apply difference_step_new; [done | eauto]. }
      specialize (IH (done_vs ++ [v]) (done_ts ++ [t]) h'' Hss Hfr'' Hi'' Hdone'').
      rewrite last_length in IH.
      destruct (mapM g ss) as [ts | e]; simpl.
      * destruct IH as (vs & hF & Hloop & HF & Hread & HfrF).
        rewrite <- app_assoc in HF.
        rewrite <- (app_assoc done_vs), <- (app_assoc done_ts) in Hread.
        exists (v :: vs), hF. done.
      * destruct IH as (hF & Hloop & HfrF). exists hF. done.
    + destruct Hs as (h' & Hf & Hsub).
      rewrite (HM_bind_Err _ _ _ _ _ Hf). simpl.
      exists h'. split; [done |]. by eapply frame_except_weaken.
Qed.

(** ** isPath on a string *)

Lemma list_len_Some l0 (h : heap) xs :
  h !! l0 = Some xs → list_len l0 h = (Ok (length xs), h).
Proof. intros H. unfold list_len. by rewrite H. Qed.

Lemma realises_depth f g n s : realises f g n s → realises f g (S n) s.
Proof.
  intros H h. specialize (H h). destruct (g s); [| done].
  destruct H as (v & h' & Hf & Hsub & Hv). exists v, h'.
  split; [done |]. split; [done |]. by apply read_tree_mono_depth.
Qed.

Lemma isPath_str_realises E d s :
  realises (isPath E (S (S d))) (spec_isPath E) 2 s.
Proof.
  destruct (str_contains "," s) eqn:Hcomma.
  2:{ assert (Hspec : spec_isPath E s = spec_normalize_part E s).
      { unfold spec_isPath, spec_normalize_part. rewrite Hcomma.
        by destruct (String.eqb s EmptyString). }
      intros h. rewrite Hspec.
      by apply (realises_depth _ _ 1), isPath_part_realises. }
  intros h. unfold spec_isPath. cbn [isPath falsy]. rewrite Hcomma.
  destruct (String.eqb s EmptyString) eqn:Hs.
  { exists (OStr s), h. apply String.eqb_eq in Hs as ->. done. }
  set (parts := py_split "," (py_rstrip "]" (py_lstrip "[" s))).
  set (l0 := fresh (dom h)).
  set (hb := <[l0 := OStr <$> parts]> h).
  assert (Hnew : new_list (OStr <$> parts) h = (Ok l0, hb)) by reflexivity.
  assert (Hb0 : hb !! l0 = Some (OStr <$> parts)) by apply lookup_insert_eq.
  assert (Hh0 : h !! l0 = None) by apply fresh_lookup_None.
  rewrite (HM_bind_Ok _ _ _ _ _ Hnew).
  rewrite (HM_bind_Ok _ _ _ _ _ (list_len_Some _ _ _ Hb0)).
  rewrite length_fmap.
  assert (Hparts : Forall (realises (isPath E (S d)) (spec_normalize_part E) 1) parts).
  { eapply Forall_impl; [apply (py_split_no_sep ",") |].
    intros p Hp. by apply isPath_part_realises. }
  pose proof (for_enumerate_realises _ _ _ l0 hb (ltac:(eauto)) parts [] [] hb
                Hparts (frame_except_refl _ _) Hb0 (List.Forall2_nil _)) as Hloop.
  assert (Hframe : ∀ hF : heap, frame_except l0 hb hF → h ⊆ hF).
  { intros hF HfrF. apply map_subseteq_spec. intros l xs Hl.
    assert (l ≠ l0) by (intros ->; congruence).
    apply HfrF; [done |]. subst hb. by rewrite lookup_insert_ne. }
  cbn [length app] in Hloop.
  destruct (mapM (spec_normalize_part E) parts) as [ts | e]; cbn [fmap result_fmap].
  - destruct Hloop as (vs & hF & Hrun & HF & Hread & HfrF).
    rewrite (HM_bind_Ok _ _ _ _ _ Hrun).
    exists (OList l0), hF. split; [reflexivity |]. split; [by apply Hframe |].
    apply (read_tree_list_Some _ _ _ vs).
    + by apply lookup_difference_Some.
    + eapply Forall2_impl; [exact Hread |]. intros x y.
      apply read_tree_mono_heap, difference_mono; [done |].
      apply insert_subseteq, Hh0.
  - destruct Hloop as (hF & Hrun & HfrF).
    rewrite (HM_bind_Err _ _ _ _ _ Hrun).
    exists hF. split; [done |]. by apply Hframe.
Qed.

(** C7 (as amended): with depth left for two calls, isPath on a string
    computes [spec_isPath]: the empty string as it is; a string with a
    comma as the list of its parts between commas, once leading '[' and
    trailing ']' are stripped, each normalised; a string naming a
    directory as its absolute path and a separator, another existing entry
    as its absolute path; a string naming nothing (and with no wildcard)
    raises the invalid-path error.  The value is made of new lists, and
    the lists there were are as they were. *)
Theorem isPath_refines_spec (E : env) (d : nat) (s : string) (h : heap) :
  match spec_isPath E s with
  | Ok t =>
      ∃ v (h' : heap),
        isPath E (S (S d)) (OStr s) h = (Ok v, h')
        ∧ h ⊆ h'
        ∧ read_tree 2 (h' ∖ h) v = Some t
        ∧ read_tree 2 h' v = Some t
  | Err e =>
      ∃ h' : heap, isPath E (S (S d)) (OStr s) h = (Err e, h') ∧ h ⊆ h'
  end.
Proof.
  pose proof (isPath_str_realises E d s h) as H.
  destruct (spec_isPath E s); [| done].
  destruct H as (v & h' & Hrun & Hsub & Hv). exists v, h'.
  split; [done |]. split; [done |]. split; [done |].
  eapply read_tree_mono_heap; [| exact Hv].
  apply map_subseteq_spec. intros l xs. rewrite lookup_difference_Some. by intros [? _].
Qed.

(** C7, as the specification states it, fails on a bracketed list: the
    brackets are stripped before the string is split, so both parts are
    found, where the parts of the string as it stands name nothing. *)
Lemma isPath_brackets_counterexample :
  isPath demo_env 2 (OStr "[/data,run.py]") ∅
  = (Ok (OList 1%positive),
     {[ 1%positive := [OStr "/data/"; OStr "/home/user/run.py"] ]})
  ∧ spec_isPath_stated demo_env "[/data,run.py]"
    = Err (ArgumentTypeError ("Path: " +:+ dquote +:+ "[/data" +:+ dquote
                                +:+ " does not exist"))
  ∧ spec_isPath demo_env "[/data,run.py]"
    = Ok (TList [TStr "/data/"; TStr "/home/user/run.py"]).
Proof. split; [| split]; vm_compute; reflexivity. Qed.

(** ** isPath on a list *)

Lemma isPath_not_list_frame E d v (h : heap) :
  (∀ l, v ≠ OList l) → h ⊆ snd (isPath E (S (S d)) v h).
Proof.
  intros Hv. destruct v as [| b | z | s | l].
  - done.
  - cbn [isPath]. by destruct (falsy (OBool b)).
  - cbn [isPath]. by destruct (falsy (OInt z)).
  - pose proof (isPath_str_realises E d s h) as H.
    destruct (spec_isPath E s).
    + by destruct H as (v & h' & -> & Hsub & _).
    + by destruct H as (h' & -> & Hsub).
  - by destruct (Hv l).
Qed.

(** C8 (as amended): isPath only queries the file system, and on an
    argument that is not a list it changes no list of the store.  A list
    of strings it is given is normalised in place: with depth left for
    three calls, the call returns the very list it was given, whose
    elements are now the normalised strings, in order (or raises the error
    of the first element that cannot be normalised); the other lists are
    as they were. *)
Theorem isPath_list_in_place (E : env) (d : nat) (l : loc) (ss : list string)
    (h : heap) :
  h !! l = Some (OStr <$> ss) →
  match mapM (spec_isPath E) ss with
  | Ok ts =>
      ∃ vs (h' : heap),
        isPath E (S (S (S d))) (OList l) h = (Ok (OList l), h')
        ∧ h' !! l = Some vs
        ∧ Forall2 (fun v t => read_tree 2 h' v = Some t) vs ts
        ∧ (∀ l', l' ≠ l → ∀ xs, h !! l' = Some xs → h' !! l' = Some xs)
  | Err e =>
      ∃ h' : heap,
        isPath E (S (S (S d))) (OList l) h = (Err e, h')
        ∧ (∀ l', l' ≠ l → ∀ xs, h !! l' = Some xs → h' !! l' = Some xs)
  end
  ∧ (∀ v, (∀ l', v ≠ OList l') → h ⊆ snd (isPath E (S (S d)) v h)).
Proof.
  intros Hl. split; [| intros v; apply isPath_not_list_frame].
  cbn [isPath].
  rewrite (HM_bind_Ok _ _ _ _ _ (list_len_Some _ _ _ Hl)).
  rewrite length_fmap.
  assert (Hss : Forall (realises (isPath E (S (S d))) (spec_isPath E) 2) ss).
  { apply Forall_forall. intros s _. apply isPath_str_realises. }
  pose proof (for_enumerate_realises _ _ _ l h (ltac:(eauto)) ss [] [] h
                Hss (frame_except_refl _ _) Hl (List.Forall2_nil _)) as Hloop.
  cbn [length app] in Hloop.
  destruct (mapM (spec_isPath E) ss) as [ts | e].
  - destruct Hloop as (vs & hF & Hrun & HF & Hread & HfrF).
    rewrite (HM_bind_Ok _ _ _ _ _ Hrun).
    exists vs, hF. split; [reflexivity |]. split; [done |]. split; [| done].
    eapply Forall2_impl; [exact Hread |]. intros x y.
    apply read_tree_mono_heap.
    apply map_subseteq_spec. intros l' xs. rewrite lookup_difference_Some. by intros [? _].
  - destruct Hloop as (hF & Hrun & HfrF).
    rewrite (HM_bind_Err _ _ _ _ _ Hrun). by exists hF.
Qed.

Lemma isPath_list_in_place_witness :
  let h : heap := {[ 1%positive := [OStr "/data"; OStr "run.py"] ]} in
  h !! 1%positive = Some (OStr <$> ["/data"; "run.py"])
  ∧ mapM (spec_isPath demo_env) ["/data"; "run.py"]
    = Ok [TStr "/data/"; TStr "/home/user/run.py"]
  ∧ ∃ vs (h' : heap),
      isPath demo_env 3 (OList 1%positive) h = (Ok (OList 1%positive), h')
      ∧ h' !! 1%positive = Some vs
      ∧ Forall2 (fun v t => read_tree 2 h' v = Some t) vs
                [TStr "/data/"; TStr "/home/user/run.py"]
      ∧ (∀ l', l' ≠ 1%positive → ∀ xs, h !! l' = Some xs → h' !! l' = Some xs).
Proof.
  intros h.
  assert (Hl : h !! 1%positive = Some (OStr <$> ["/data"; "run.py"]))
    by (vm_compute; reflexivity).
  assert (Hm : mapM (spec_isPath demo_env) ["/data"; "run.py"]
               = Ok [TStr "/data/"; TStr "/home/user/run.py"])
    by (vm_compute; reflexivity).
  split; [exact Hl |]. split; [exact Hm |].
  pose proof (isPath_list_in_place demo_env 0 1%positive ["/data"; "run.py"] h Hl)
    as [H _].
  rewrite Hm in H. exact H.
Defined.

(** C8, as the specification states it, fails on a list: after the call
    the list holds the normalised paths, not the strings it was given. *)
Lemma isPath_mutates_list_counterexample :
  let h : heap := {[ 1%positive := [OStr "/data"; OStr "run.py"] ]} in
  isPath demo_env 2 (OList 1%positive) h
  = (Ok (OList 1%positive),
     {[ 1%positive := [OStr "/data/"; OStr "/home/user/run.py"] ]})
  ∧ snd (isPath demo_env 2 (OList 1%positive) h) !! 1%positive ≠ h !! 1%positive.
Proof.
  intros h. split.
  - vm_compute. reflexivity.
  - vm_compute. discriminate.
Qed.

(** * Further properties *)

(** ** make_optstr and the scheduler options *)

Lemma dict_get_filter_key {V} (P : string → bool) (key : string) (d : dict V) :
  P key = true →
  dict_get key (filter (fun kv => P kv.1 = true) d) = dict_get key d.
Proof.
  intros HP. unfold dict in *. induction d as [| [k v] d IH]; [done |].
  rewrite filter_cons. simpl. destruct (decide (P k = true)) as [Hk | Hk]; simpl.
  - by rewrite IH.
  - destruct (String.eqb_spec k key) as [-> | _]; [congruence | done].
Qed.

Lemma turns_filter_qsub (options all : dict pyval) options_map list_delimiter :
  turns (filter (fun kv => negb (str_contains "qsub" kv.1) = true) all)
        options_map list_delimiter
        (keys (filter (fun kv => negb (str_contains "qsub" kv.1) = true) options))
  = turns all options_map list_delimiter (keys options).
Proof.
  unfold dict, keys in *. induction options as [| [k v] options IH]; [done |].
  rewrite filter_cons. cbn [map fst].
  destruct (decide (negb (str_contains "qsub" k) = true)) as [Hk | Hk];
    cbn [map fst turns].
  - rewrite IH. f_equal. apply turn_ext.
    by apply (dict_get_filter_key (fun key => negb (str_contains "qsub" key))).
  - rewrite IH. unfold turn.
    destruct (str_contains "qsub" k); [| done]. cbn [mbind result_bind].
    by destruct (turns all options_map list_delimiter (map fst options)).
Qed.

(** X1: the scheduler options never reach the option string: taking every
    key that contains "qsub" out of the options leaves make_optstr as it
    is. *)
Theorem make_optstr_ignores_scheduler_options
    (options : dict pyval) (options_map : dict string) (list_delimiter : string) :
  make_optstr (filter (fun kv => negb (str_contains "qsub" kv.1) = true) options)
              options_map list_delimiter
  = make_optstr options options_map list_delimiter.
Proof. rewrite !make_optstr_turns. by rewrite turns_filter_qsub. Qed.

(** ** submit: what a script needs, and failures before the first call *)

(** X2: a script that renders had a string for module name, every key the
    script reads ([qsub_N], [qsub_walltime], [qsub_nodes], [qsub_ppn],
    [qsub_pmem], [qsub_q], [qsub_M]) in the options, and a string for
    [qsub_q]. *)
Theorem render_script_Ok_keys (options : dict pyval) (module_name job_string : pyval)
    (optstr script : string) :
  render_script options module_name job_string optstr = Ok script →
  (∃ m, module_name = VStr m)
  ∧ Forall (fun key => is_Some (dict_get key options))
           ["qsub_N"; "qsub_walltime"; "qsub_nodes"; "qsub_ppn"; "qsub_pmem";
            "qsub_q"; "qsub_M"]
  ∧ (∃ q, dict_get "qsub_q" options = Some (VStr q)).
Proof.
  intros H. split; [by eapply render_script_Ok_module_name |].
  rewrite !Forall_cons. revert H. unfold render_script, getitem.
  destruct (split_method module_name ".") as [mn | e]; simpl; [| done].
  destruct (dict_get "qsub_N" options) as [qsub_N |]; simpl; [| done].
  destruct (dict_get "qsub_walltime" options) as [qsub_walltime |]; simpl; [| done].
  destruct (dict_get "qsub_nodes" options) as [qsub_nodes |]; simpl; [| done].
  destruct (dict_get "qsub_ppn" options) as [qsub_ppn |]; simpl; [| done].
  destruct (dict_get "qsub_pmem" options) as [qsub_pmem |]; simpl; [| done].
  destruct (truthy qsub_pmem); simpl;
    [destruct (py_int qsub_pmem) as [gb | e]; simpl; [| done] |];
    (destruct (dict_get "qsub_q" options) as [qsub_q |]; simpl; [| done]);
    (destruct qsub_q; simpl; try done);
    (destruct (dict_get "qsub_M" options) as [qsub_M |]; simpl; [| done]);
    intros _; repeat split; eauto using Forall_nil_2.
Qed.

Lemma render_script_Ok_keys_witness :
  render_script demo_options (VStr "foo") (VBool false) "--verbose"
  = Ok ("#!/bin/bash" +:+ nl +:+ "##foo qsub script" +:+ nl +:+ "#PBS -S /bin/sh" +:+ nl
        +:+ "#PBS -N foo" +:+ nl +:+ "#PBS -l walltime=24:00:00" +:+ nl
        +:+ "#PBS -V" +:+ nl +:+ "#PBS -l nodes=1:ppn=8" +:+ nl
        +:+ "#PBS -l pmem=2Gb" +:+ nl +:+ "#PBS -q auto" +:+ nl
        +:+ "python -c " +:+ dquote +:+ "import foo; foo.__run__()" +:+ dquote
        +:+ " --verbose" +:+ nl)
  ∧ ∃ q, dict_get "qsub_q" demo_options = Some (VStr q).
Proof.
  assert (H : render_script demo_options (VStr "foo") (VBool false) "--verbose"
              = Ok ("#!/bin/bash" +:+ nl +:+ "##foo qsub script" +:+ nl
                    +:+ "#PBS -S /bin/sh" +:+ nl
                    +:+ "#PBS -N foo" +:+ nl +:+ "#PBS -l walltime=24:00:00" +:+ nl
                    +:+ "#PBS -V" +:+ nl +:+ "#PBS -l nodes=1:ppn=8" +:+ nl
                    +:+ "#PBS -l pmem=2Gb" +:+ nl +:+ "#PBS -q auto" +:+ nl
                    +:+ "python -c " +:+ dquote +:+ "import foo; foo.__run__()" +:+ dquote
                    +:+ " --verbose" +:+ nl))
    by (vm_compute; reflexivity).
  split; [exact H |].
  exact (proj2 (proj2 (render_script_Ok_keys _ _ _ _ _ H))).
Defined.

(** X3: submit renders the whole script before its first system call: when
    the script does not render (a key is missing, a value has the wrong
    type), the call raises with nothing printed, written or submitted, and
    the world as it was. *)
Theorem submit_render_error_no_effects {W} (h : handler W) (w : W)
    (options : dict pyval) (options_map : dict string)
    (module_name job_string : pyval) (list_delimiter : string) :
  (∀ optstr script,
     make_optstr options options_map list_delimiter = Ok optstr →
     render_script options module_name job_string optstr ≠ Ok script) →
  ∃ e,
    run h (submit options options_map module_name job_string list_delimiter) w
    = Outcome (Err e) w [].
Proof.
  intros Hrender. unfold submit.
  destruct (negb (truthy module_name) && negb (truthy job_string)); [by eexists |].
  destruct (negb (truthy job_string) && truthy module_name
            && (length options_map =? 0)%nat); [by eexists |].
  destruct (make_optstr options options_map list_delimiter) as [optstr | e] eqn:Hopt;
    cbn [lift mbind prog_mbind prog_bind]; [| by exists e].
  pose proof (fun script => Hrender optstr script eq_refl) as Hr.
  destruct (render_script _ _ _ _) as [script | e]; [by destruct (Hr script) |].
  by exists e.
Qed.

Lemma submit_render_error_no_effects_witness :
  (∀ optstr script,
     make_optstr demo_options_no_pmem demo_options_map "," = Ok optstr →
     render_script demo_options_no_pmem (VStr "foo") (VBool false) optstr ≠ Ok script)
  ∧ ∃ e,
      run (mem_handler EmptyString)
          (submit demo_options_no_pmem demo_options_map (VStr "foo") (VBool false) ",")
          empty_world
      = Outcome (Err e) empty_world [].
Proof.
  assert (H : ∀ optstr script,
            make_optstr demo_options_no_pmem demo_options_map "," = Ok optstr →
            render_script demo_options_no_pmem (VStr "foo") (VBool false) optstr
            ≠ Ok script).
  { intros optstr script _ Hs.
    apply render_script_Ok_keys in Hs as (_ & Hkeys & _).
    rewrite !Forall_cons in Hkeys. destruct Hkeys as (_ & _ & _ & _ & [v Hv] & _).
    discriminate Hv. }
  split; [exact H |].
  exact (submit_render_error_no_effects (mem_handler EmptyString) empty_world
           demo_options_no_pmem demo_options_map (VStr "foo") (VBool false) "," H).
Defined.

(** ** submit: the payload of the script *)

Lemma script_tail_job_string options module_name job_string optstr optstr' :
  truthy job_string = true →
  script_tail options module_name job_string optstr
  = script_tail options module_name job_string optstr'.
Proof. intros Hj. unfold script_tail. by rewrite Hj. Qed.

Lemma render_script_job_string options module_name job_string optstr optstr' :
  truthy job_string = true →
  render_script options module_name job_string optstr
  = render_script options module_name job_string optstr'.
Proof.
  intros Hj. rewrite !render_script_parts.
  by rewrite (script_tail_job_string _ _ _ optstr optstr').
Qed.

Lemma str_add_Ok_inv (s : string) (v : pyval) (r : string) :
  str_add s v = Ok r → ∃ t, v = VStr t ∧ r = s +:+ t.
Proof. destruct v; simpl; intros H; inversion H; eauto. Qed.

Lemma render_script_ends_with_job_string (options : dict pyval)
    (module_name job_string : pyval) (optstr script : string) :
  truthy job_string = true →
  render_script options module_name job_string optstr = Ok script →
  ∃ command directives, job_string = VStr command ∧ script = directives +:+ command.
Proof.
  intros Hj Hs. rewrite render_script_parts in Hs.
  destruct (script_head options module_name) as [a | e]; simpl in Hs; [| done].
  destruct (pmem_directive options) as [pm | e]; simpl in Hs; [| done].
  destruct (script_tail options module_name job_string optstr) as [b | e] eqn:Hb;
    simpl in Hs; [| done].
  injection Hs as <-.
  unfold script_tail in Hb. rewrite Hj in Hb.
  destruct (getitem options "qsub_q") as [qsub_q | e]; simpl in Hb; [| done].
  destruct (str_add "#PBS -q " qsub_q) as [line | e]; simpl in Hb; [| done].
  destruct (getitem options "qsub_M") as [qsub_M | e]; simpl in Hb; [| done].
  match type of Hb with
  | mbind _ ?X = _ => destruct X as [mail | e]; simpl in Hb; [| done]
  end.
  destruct (str_add EmptyString job_string) as [payload | e] eqn:Hp; simpl in Hb; [| done].
  injection Hb as <-.
  apply str_add_Ok_inv in Hp as (command & -> & ->).
  exists command, (a +:+ pm +:+ line +:+ nl +:+ mail).
  split; [done |]. by rewrite !str_app_assoc.
Qed.

Lemma render_script_agree_job_string (o1 o2 : dict pyval) module_name job_string
    optstr1 optstr2 :
  truthy job_string = true →
  (∀ key, key ∈ job_string_keys → dict_get key o1 = dict_get key o2) →
  render_script o1 module_name job_string optstr1
  = render_script o2 module_name job_string optstr2.
Proof.
  intros Hj H. rewrite (render_script_job_string o1 _ _ optstr1 optstr2) by done.
  rewrite !render_script_parts. unfold script_head, pmem_directive, script_tail.
  rewrite Hj.
  rewrite (getitem_agree o1 o2 "qsub_N"), (getitem_agree o1 o2 "qsub_walltime"),
    (getitem_agree o1 o2 "qsub_nodes"), (getitem_agree o1 o2 "qsub_ppn"),
    (getitem_agree o1 o2 "qsub_pmem"), (getitem_agree o1 o2 "qsub_q"),
    (getitem_agree o1 o2 "qsub_M"), (getitem_agree o1 o2 "qsub_m")
    by (apply H; unfold job_string_keys; set_solver).
  reflexivity.
Qed.

(** X4: with a job string, the flag map, the list delimiter and the
    program options matter only through make_optstr, which is still
    called: if it raises, submit raises its error before anything else
    happens; if it returns, submit is one and the same program for all
    flag maps, delimiters and options that agree on the eight keys the
    script reads ([qsub_N], [qsub_walltime], [qsub_nodes], [qsub_ppn],
    [qsub_pmem], [qsub_q], [qsub_M], [qsub_m]).  The script ends with the
    job string as it was given (no newline is added). *)
Theorem submit_job_string_ignores_flags
    (o1 o2 : dict pyval) (map1 map2 : dict string)
    (module_name job_string : pyval) (delimiter1 delimiter2 : string) :
  truthy job_string = true →
  (∀ key, key ∈ job_string_keys → dict_get key o1 = dict_get key o2) →
  (∀ optstr1 optstr2,
     make_optstr o1 map1 delimiter1 = Ok optstr1 →
     make_optstr o2 map2 delimiter2 = Ok optstr2 →
     submit o1 map1 module_name job_string delimiter1
     = submit o2 map2 module_name job_string delimiter2)
  ∧ (∀ e, make_optstr o1 map1 delimiter1 = Err e →
          submit o1 map1 module_name job_string delimiter1 = Raise e)
  ∧ (∀ optstr script,
       render_script o1 module_name job_string optstr = Ok script →
       ∃ command directives, job_string = VStr command ∧ script = directives +:+ command).
Proof.
  intros Hj Hagree. split; [| split].
  - intros optstr1 optstr2 H1 H2. unfold submit. rewrite Hj, H1, H2.
    cbn [lift mbind prog_mbind prog_bind negb andb].
    rewrite (render_script_agree_job_string o1 o2 _ _ optstr1 optstr2) by done.
    rewrite (getitem_agree o1 o2 "qsub_N")
      by (apply Hagree; unfold job_string_keys; set_solver).
    reflexivity.
  - intros e He. unfold submit. rewrite Hj, He.
    by destruct (truthy module_name).
  - intros optstr script. by apply render_script_ends_with_job_string.
Qed.

Lemma demo_options_files_agree key :
  key ∈ job_string_keys → dict_get key demo_options = dict_get key demo_options_files.
Proof.
  intros Hkey. unfold job_string_keys in Hkey.
  repeat (apply elem_of_cons in Hkey as [-> | Hkey]; [reflexivity |]).
  by apply elem_of_nil in Hkey.
Defined.

Lemma submit_job_string_ignores_flags_witness :
  truthy (VStr "ls -l") = true
  ∧ make_optstr demo_options demo_options_map "," = Ok "--verbose"
  ∧ make_optstr demo_options_files [("files", "--files")] ";" = Ok "--files=a.txt;b.txt"
  ∧ submit demo_options demo_options_map (VStr "foo") (VStr "ls -l") ","
    = submit demo_options_files [("files", "--files")] (VStr "foo") (VStr "ls -l") ";".
Proof.
  assert (Hj : truthy (VStr "ls -l") = true) by reflexivity.
  assert (H1 : make_optstr demo_options demo_options_map "," = Ok "--verbose")
    by (vm_compute; reflexivity).
  assert (H2 : make_optstr demo_options_files [("files", "--files")] ";"
               = Ok "--files=a.txt;b.txt") by (vm_compute; reflexivity).
  split; [exact Hj |]. split; [exact H1 |]. split; [exact H2 |].
  exact (proj1 (submit_job_string_ignores_flags demo_options demo_options_files
                  demo_options_map [("files", "--files")] (VStr "foo") (VStr "ls -l")
                  "," ";" Hj demo_options_files_agree) _ _ H1 H2).
Defined.

(** X5: the mail directives are optional.  With a false [qsub_M] the key
    [qsub_m] is never read: the script is the same whatever [qsub_m] is, or
    without it.  With an address, the lines "#PBS -M <address>" and
    "#PBS -m <events>" come right after the queue line. *)
Theorem render_script_mail (o1 o2 options : dict pyval) (no_address : pyval)
    (address events : string) (module_name job_string : pyval) (optstr : string) :
  dict_get "qsub_M" o1 = Some no_address →
  truthy no_address = false →
  (∀ key, key ≠ "qsub_m" → dict_get key o1 = dict_get key o2) →
  dict_get "qsub_M" options = Some (VStr address) →
  address ≠ EmptyString →
  dict_get "qsub_m" options = Some (VStr events) →
  render_script o1 module_name job_string optstr
  = render_script o2 module_name job_string optstr
  ∧ (∀ script,
       render_script options module_name job_string optstr = Ok script →
       ∃ a b q,
         dict_get "qsub_q" options = Some (VStr q)
         ∧ script = a +:+ "#PBS -q " +:+ q +:+ nl +:+ "#PBS -M " +:+ address +:+ nl
                      +:+ "#PBS -m " +:+ events +:+ nl +:+ b).
Proof.
  intros HM1 Hno Hagree HM Haddr Hm. split.
  - assert (HM2 : dict_get "qsub_M" o2 = Some no_address)
      by (by rewrite <- Hagree).
    rewrite !render_script_parts.
    unfold script_head, pmem_directive, script_tail, dict_get_default.
    rewrite (getitem_agree o1 o2 "qsub_N"), (getitem_agree o1 o2 "qsub_walltime"),
      (getitem_agree o1 o2 "qsub_nodes"), (getitem_agree o1 o2 "qsub_ppn"),
      (getitem_agree o1 o2 "qsub_pmem"), (getitem_agree o1 o2 "qsub_q")
      by (by apply Hagree).
    rewrite (Hagree "qsub_mpi"), (Hagree "qsub_np") by done.
    assert (G1 : getitem o1 "qsub_M" = Ok no_address)
      by (unfold getitem; by rewrite HM1).
    assert (G2 : getitem o2 "qsub_M" = Ok no_address)
      by (unfold getitem; by rewrite HM2).
    rewrite G1, G2. cbn [mbind result_bind]. rewrite Hno. reflexivity.
  - intros script Hs. rewrite render_script_parts in Hs.
    destruct (script_head options module_name) as [a | e]; simpl in Hs; [| done].
    destruct (pmem_directive options) as [pm | e]; simpl in Hs; [| done].
    destruct (script_tail options module_name job_string optstr) as [b | e] eqn:Hb;
      simpl in Hs; [| done].
    injection Hs as <-.
    unfold script_tail, getitem in Hb. rewrite HM, Hm in Hb.
    destruct (dict_get "qsub_q" options) as [qsub_q |]; simpl in Hb; [| done].
    destruct qsub_q as [| | | q |]; simpl in Hb; try done.
    assert (Ht : truthy (VStr address) = true).
    { simpl. by destruct (String.eqb_spec address EmptyString). }
    cbn [truthy] in Ht. rewrite Ht in Hb. simpl in Hb.
    match type of Hb with
    | context [mbind _ ?m] => destruct m as [payload | e]; simpl in Hb; [| done]
    end.
    injection Hb as <-.
    exists (a +:+ pm), payload, q. split; [done |]. by rewrite !str_app_assoc.
Qed.

Lemma demo_options_agree_events key :
  key ≠ "qsub_m" → dict_get key demo_options = dict_get key demo_options_no_events.
Proof.
  intros Hk. unfold demo_options, demo_options_no_events. cbn [dict_get].
  repeat match goal with
         | |- context [String.eqb ?a key] =>
             destruct (String.eqb_spec a key); [first [done | congruence] |]
         end.
  done.
Defined.

Lemma render_script_mail_witness :
  render_script demo_options (VStr "foo") (VBool false) "--verbose"
  = render_script demo_options_no_events (VStr "foo") (VBool false) "--verbose"
  ∧ (∀ script,
       render_script demo_options_mail (VStr "foo") (VBool false) "--verbose"
       = Ok script →
       ∃ a b q,
         dict_get "qsub_q" demo_options_mail = Some (VStr q)
         ∧ script = a +:+ "#PBS -q " +:+ q +:+ nl +:+ "#PBS -M " +:+ "me@example.org"
                      +:+ nl +:+ "#PBS -m " +:+ "bae" +:+ nl +:+ b).
Proof.
  apply (render_script_mail demo_options demo_options_no_events demo_options_mail
           (VBool false) "me@example.org" "bae" (VStr "foo") (VBool false) "--verbose");
    [reflexivity | reflexivity | apply demo_options_agree_events | reflexivity
    | discriminate | reflexivity].
Defined.

Lemma item0_split_idem (c : ascii) (s : string) :
  item0 (py_split c (item0 (py_split c s))) = item0 (py_split c s).
Proof. apply first_token_nested, item0_split_no_sep. Qed.

(** X6: of a dotted module name only the first component reaches the
    script: "pkg.mod" is submitted as [import pkg; pkg.__run__()], under
    the header "##pkg qsub script". *)
Theorem render_script_first_component (options : dict pyval) (m : string)
    (job_string : pyval) (optstr : string) :
  render_script options (VStr m) job_string optstr
  = render_script options (VStr (item0 (py_split "." m))) job_string optstr.
Proof.
  unfold render_script, split_method. cbn [mbind result_bind].
  by rewrite !item0_split_idem.
Qed.

Lemma module_payload_inv (options : dict pyval) (m optstr payload : string) :
  (mpi ← (if truthy (dict_get_default options "qsub_mpi" (VBool false)) then
            qsub_nodes ← getitem options "qsub_nodes";
            qsub_ppn ← getitem options "qsub_ppn";
            default ← py_mul qsub_nodes qsub_ppn;
            let np := dict_get_default options "qsub_np" default in
            Ok ("mpirun -n " +:+ py_str np +:+ " ")
          else Ok EmptyString);
   mn1 ← split_method (VStr m) ".";
   mn2 ← split_method (VStr m) ".";
   Ok (mpi +:+ "python -c " +:+ dquote +:+ "import " +:+ item0 mn1 +:+ "; "
         +:+ item0 mn2 +:+ ".__run__()" +:+ dquote +:+ " " +:+ optstr +:+ nl))
  = Ok payload →
  ∃ launcher,
    payload = launcher +:+ "python -c " +:+ dquote +:+ "import "
                +:+ item0 (py_split "." m) +:+ "; " +:+ item0 (py_split "." m)
                +:+ ".__run__()" +:+ dquote +:+ " " +:+ optstr +:+ nl
    ∧ if truthy (dict_get_default options "qsub_mpi" (VBool false))
      then ∃ nodes ppn product,
             dict_get "qsub_nodes" options = Some nodes
             ∧ dict_get "qsub_ppn" options = Some ppn
             ∧ py_mul nodes ppn = Ok product
             ∧ launcher = "mpirun -n "
                            +:+ py_str (dict_get_default options "qsub_np" product) +:+ " "
      else launcher = EmptyString.
Proof.
  destruct (truthy (dict_get_default options "qsub_mpi" (VBool false))).
  - unfold getitem.
    destruct (dict_get "qsub_nodes" options) as [nodes |]; simpl; [| done].
    destruct (dict_get "qsub_ppn" options) as [ppn |]; simpl; [| done].
    destruct (py_mul nodes ppn) as [product | e] eqn:Hmul; simpl; [| done].
    intros [= <-]. eexists. split; [reflexivity |]. by exists nodes, ppn, product.
  - simpl. intros [= <-]. by exists EmptyString.
Qed.

Lemma render_script_payload_inv (options : dict pyval) (m : string)
    (job_string : pyval) (optstr script : string) :
  truthy job_string = false →
  render_script options (VStr m) job_string optstr = Ok script →
  ∃ directives launcher,
    script = directives +:+ nl +:+ launcher +:+ "python -c " +:+ dquote +:+ "import "
               +:+ item0 (py_split "." m) +:+ "; " +:+ item0 (py_split "." m)
               +:+ ".__run__()" +:+ dquote +:+ " " +:+ optstr +:+ nl
    ∧ if truthy (dict_get_default options "qsub_mpi" (VBool false))
      then ∃ nodes ppn product,
             dict_get "qsub_nodes" options = Some nodes
             ∧ dict_get "qsub_ppn" options = Some ppn
             ∧ py_mul nodes ppn = Ok product
             ∧ launcher = "mpirun -n "
                            +:+ py_str (dict_get_default options "qsub_np" product) +:+ " "
      else launcher = EmptyString.
Proof.
  intros Hj Hs. rewrite render_script_parts in Hs.
  destruct (script_head options (VStr m)) as [a | e]; simpl in Hs; [| done].
  destruct (pmem_directive options) as [pm | e]; simpl in Hs; [| done].
  destruct (script_tail options (VStr m) job_string optstr) as [b | e] eqn:Hb;
    simpl in Hs; [| done].
  injection Hs as <-.
  unfold script_tail in Hb. rewrite Hj in Hb.
  destruct (getitem options "qsub_q") as [qsub_q | e]; simpl in Hb; [| done].
  destruct (str_add "#PBS -q " qsub_q) as [line | e]; simpl in Hb; [| done].
  destruct (getitem options "qsub_M") as [qsub_M | e]; simpl in Hb; [| done].
  destruct (truthy qsub_M); simpl in Hb.
  - destruct (str_add "#PBS -M " qsub_M) as [line' | e]; simpl in Hb; [| done].
    destruct (getitem options "qsub_m") as [qsub_m | e]; simpl in Hb; [| done].
    destruct (str_add _ qsub_m) as [line'' | e]; simpl in Hb; [| done].
    match type of Hb with
    | mbind _ ?X = _ => destruct X as [payload | e] eqn:HX; simpl in Hb; [| done]
    end.
    injection Hb as <-.
    apply module_payload_inv in HX as (launcher & -> & Hl).
    exists (a +:+ pm +:+ line +:+ nl +:+ line''), launcher.
    split; [| done]. by rewrite !str_app_assoc.
  - match type of Hb with
    | mbind _ ?X = _ => destruct X as [payload | e] eqn:HX; simpl in Hb; [| done]
    end.
    injection Hb as <-.
    apply module_payload_inv in HX as (launcher & -> & Hl).
    exists (a +:+ pm +:+ line), launcher.
    split; [| done]. by rewrite !str_app_assoc.
Qed.

(** X7: without a job string, a script that renders ends with the line
    [python -c "import M; M.__run__()" <optstr>], M the first component of
    the module name, right after the directives.  With a true [qsub_mpi]
    the line starts with "mpirun -n <np> ", <np> being [qsub_np] if the
    options have it and the product of [qsub_nodes] and [qsub_ppn]
    otherwise; the product is computed in both cases, so it must be
    defined even when [qsub_np] is given.  Without [qsub_mpi] (or with a
    false one) there is no launcher. *)
Theorem render_script_payload (options : dict pyval) (m : string)
    (job_string : pyval) (optstr script : string) :
  truthy job_string = false →
  render_script options (VStr m) job_string optstr = Ok script →
  ∃ directives launcher,
    script = directives +:+ nl +:+ launcher +:+ "python -c " +:+ dquote +:+ "import "
               +:+ item0 (py_split "." m) +:+ "; " +:+ item0 (py_split "." m)
               +:+ ".__run__()" +:+ dquote +:+ " " +:+ optstr +:+ nl
    ∧ if truthy (dict_get_default options "qsub_mpi" (VBool false))
      then ∃ nodes ppn product,
             dict_get "qsub_nodes" options = Some nodes
             ∧ dict_get "qsub_ppn" options = Some ppn
             ∧ py_mul nodes ppn = Ok product
             ∧ launcher = "mpirun -n "
                            +:+ py_str (dict_get_default options "qsub_np" product) +:+ " "
      else launcher = EmptyString.
Proof. apply render_script_payload_inv. Qed.

Lemma render_script_payload_witness :
  truthy (VBool false) = false
  ∧ render_script demo_options_mpi (VStr "foo.bar") (VBool false) "--verbose"
    = Ok ("#!/bin/bash" +:+ nl +:+ "##foo qsub script" +:+ nl +:+ "#PBS -S /bin/sh" +:+ nl
          +:+ "#PBS -N foo" +:+ nl +:+ "#PBS -l walltime=24:00:00" +:+ nl
          +:+ "#PBS -V" +:+ nl +:+ "#PBS -l nodes=2:ppn=8" +:+ nl
          +:+ "#PBS -l pmem=2Gb" +:+ nl +:+ "#PBS -q auto" +:+ nl
          +:+ "mpirun -n 16 python -c " +:+ dquote +:+ "import foo; foo.__run__()"
          +:+ dquote +:+ " --verbose" +:+ nl)
  ∧ ∃ directives launcher,
      "#!/bin/bash" +:+ nl +:+ "##foo qsub script" +:+ nl +:+ "#PBS -S /bin/sh" +:+ nl
        +:+ "#PBS -N foo" +:+ nl +:+ "#PBS -l walltime=24:00:00" +:+ nl
        +:+ "#PBS -V" +:+ nl +:+ "#PBS -l nodes=2:ppn=8" +:+ nl
        +:+ "#PBS -l pmem=2Gb" +:+ nl +:+ "#PBS -q auto" +:+ nl
        +:+ "mpirun -n 16 python -c " +:+ dquote +:+ "import foo; foo.__run__()"
        +:+ dquote +:+ " --verbose" +:+ nl
      = directives +:+ nl +:+ launcher +:+ "python -c " +:+ dquote +:+ "import "
          +:+ item0 (py_split "." "foo.bar") +:+ "; " +:+ item0 (py_split "." "foo.bar")
          +:+ ".__run__()" +:+ dquote +:+ " " +:+ "--verbose" +:+ nl
      ∧ ∃ nodes ppn product,
          dict_get "qsub_nodes" demo_options_mpi = Some nodes
          ∧ dict_get "qsub_ppn" demo_options_mpi = Some ppn
          ∧ py_mul nodes ppn = Ok product
          ∧ launcher = "mpirun -n "
                         +:+ py_str (dict_get_default demo_options_mpi "qsub_np" product)
                         +:+ " ".
Proof.
  assert (Hj : truthy (VBool false) = false) by reflexivity.
  assert (Hs : render_script demo_options_mpi (VStr "foo.bar") (VBool false) "--verbose"
               = Ok ("#!/bin/bash" +:+ nl +:+ "##foo qsub script" +:+ nl
                     +:+ "#PBS -S /bin/sh" +:+ nl
                     +:+ "#PBS -N foo" +:+ nl +:+ "#PBS -l walltime=24:00:00" +:+ nl
                     +:+ "#PBS -V" +:+ nl +:+ "#PBS -l nodes=2:ppn=8" +:+ nl
                     +:+ "#PBS -l pmem=2Gb" +:+ nl +:+ "#PBS -q auto" +:+ nl
                     +:+ "mpirun -n 16 python -c " +:+ dquote
                     +:+ "import foo; foo.__run__()"
                     +:+ dquote +:+ " --verbose" +:+ nl))
    by (vm_compute; reflexivity).
  split; [exact Hj |]. split; [exact Hs |].
  exact (render_script_payload demo_options_mpi "foo.bar" (VBool false) "--verbose" _
           Hj Hs).
Defined.

(** ** submit: the order of the system calls *)

(** X8: the job name must be a string.  With another value for [qsub_N]
    (the script renders it with [str]) the script is printed and the call
    then raises TypeError on the file name: no file is written and qsub is
    not run. *)
Theorem submit_job_name_must_be_string {W} (h : handler W) (w : W)
    (options : dict pyval) (options_map : dict string)
    (module_name job_string : pyval) (list_delimiter optstr script : string)
    (qsub_N : pyval) :
  negb (truthy module_name) && negb (truthy job_string) = false →
  negb (truthy job_string) && truthy module_name
    && (length options_map =? 0)%nat = false →
  make_optstr options options_map list_delimiter = Ok optstr →
  render_script options module_name job_string optstr = Ok script →
  dict_get "qsub_N" options = Some qsub_N →
  (∀ s, qsub_N ≠ VStr s) →
  ∃ r e,
    trace (run h (submit options options_map module_name job_string list_delimiter) w)
    = [Event (SysPrint ("Script:" +:+ nl +:+ "===============" +:+ nl +:+ nl +:+ script)) r]
    ∧ returned (run h (submit options options_map module_name job_string
                         list_delimiter) w) = Err e
    ∧ (r = Ok tt →
       e = TypeError ("unsupported operand type(s) for +: '" +:+ type_name qsub_N
                        +:+ "' and 'str'")
       ∨ e = TypeError ("can only concatenate list (not " +:+ dquote +:+ "str"
                          +:+ dquote +:+ ") to list")).
Proof.
  intros H1 H2 Hopt Hscript HN Hstr. unfold submit. rewrite H1, H2, Hopt.
  cbn [lift mbind prog_mbind prog_bind]. rewrite Hscript. unfold getitem. rewrite HN.
  cbn [lift mbind prog_mbind prog_bind call run].
  destruct (h _ (SysPrint _) w) as [[[] | e] w1]; cbn [returned trace].
  - destruct qsub_N as [| b | z | s | l]; cbn [add_str lift prog_bind run returned trace];
      try (by eexists _, _; split; [reflexivity |]; split; [reflexivity |]; intros _;
           (left + right)).
    by destruct (Hstr s).
  - exists (Err e), e. split; [done |]. split; [done |]. discriminate.
Qed.

Lemma submit_job_name_must_be_string_witness :
  ∃ r e,
    trace (run (mem_handler EmptyString)
             (submit demo_options_numbered demo_options_map (VStr "foo") (VBool false) ",")
             empty_world)
    = [Event (SysPrint ("Script:" +:+ nl +:+ "===============" +:+ nl +:+ nl
                          +:+ "#!/bin/bash" +:+ nl +:+ "##foo qsub script" +:+ nl
                          +:+ "#PBS -S /bin/sh" +:+ nl
                          +:+ "#PBS -N 7" +:+ nl +:+ "#PBS -l walltime=24:00:00" +:+ nl
                          +:+ "#PBS -V" +:+ nl +:+ "#PBS -l nodes=1:ppn=8" +:+ nl
                          +:+ "#PBS -l pmem=2Gb" +:+ nl +:+ "#PBS -q auto" +:+ nl
                          +:+ "python -c " +:+ dquote +:+ "import foo; foo.__run__()"
                          +:+ dquote +:+ " --verbose" +:+ nl)) r]
    ∧ returned (run (mem_handler EmptyString)
                  (submit demo_options_numbered demo_options_map (VStr "foo")
                     (VBool false) ",")
                  empty_world) = Err e
    ∧ (r = Ok tt →
       e = TypeError ("unsupported operand type(s) for +: '" +:+ type_name (VInt 7)
                        +:+ "' and 'str'")
       ∨ e = TypeError ("can only concatenate list (not " +:+ dquote +:+ "str"
                          +:+ dquote +:+ ") to list")).
Proof.
  apply (submit_job_name_must_be_string (mem_handler EmptyString) empty_world
           demo_options_numbered demo_options_map (VStr "foo") (VBool false) ","
           "--verbose" _ (VInt 7));
    [reflexivity | reflexivity | vm_compute; reflexivity | vm_compute; reflexivity
    | reflexivity | discriminate].
Defined.


(** ** submit: the job identifier *)

Lemma py_rstrip_app_char (c : ascii) (s : string) :
  py_rstrip c (s +:+ String c EmptyString) = py_rstrip c s.
Proof.
  induction s as [| a s IH].
  - simpl. by rewrite Ascii.eqb_refl.
  - rewrite str_app_cons. simpl. by rewrite IH.
Qed.

(** X10: the job identifier is a beginning of the output of qsub, holds no
    '.', and is the same whatever the number of newlines the output ends
    with. *)
Theorem job_id_prefix_of_output (out : string) :
  (∃ rest, out = job_id out +:+ rest)
  ∧ str_contains "." (job_id out) = false
  ∧ job_id (out +:+ nl) = job_id out.
Proof.
  unfold job_id. split; [| split].
  - destruct (py_rstrip_prefix "010" out) as [r1 H1].
    destruct (item0_split_prefix "." (py_rstrip "010" out)) as [r2 H2].
    exists (r2 +:+ r1). rewrite <- str_app_assoc. by rewrite <- H2.
  - apply item0_split_no_sep.
  - by rewrite (py_rstrip_app_char "010").
Qed.

(** ** isPath: what it keeps of the store *)

Lemma keeps_lists_refl (h : heap) : keeps_lists h h.
Proof. intros l xs H. eauto. Qed.

Lemma keeps_lists_trans (h1 h2 h3 : heap) :
  keeps_lists h1 h2 → keeps_lists h2 h3 → keeps_lists h1 h3.
Proof.
  intros H12 H23 l xs H. destruct (H12 l xs H) as (ys & Hy & Hly).
  destruct (H23 l ys Hy) as (zs & Hz & Hlz). exists zs. split; [done | congruence].
Qed.

Lemma keeps_lists_new_list (xs : list obj) (h : heap) :
  keeps_lists h (snd (new_list xs h)).
Proof.
  intros l ys H. simpl. exists ys. split; [| done].
  rewrite lookup_insert_ne; [done |].
  intros <-. by rewrite fresh_lookup_None in H.
Qed.

Lemma keeps_lists_setitem l i v (h : heap) :
  keeps_lists h (snd (list_setitem l i v h)).
Proof.
  unfold list_setitem. destruct (h !! l) as [xs |] eqn:Hl; [| apply keeps_lists_refl].
  destruct (i <? length xs)%nat; [| apply keeps_lists_refl].
  intros l' ys H. simpl. destruct (decide (l' = l)) as [-> | Hne].
  - rewrite lookup_insert_eq. eexists. split; [done |].
    rewrite length_insert. congruence.
  - rewrite lookup_insert_ne by done. eauto.
Qed.

Lemma list_getitem_state l i (h : heap) : snd (list_getitem l i h) = h.
Proof.
  unfold list_getitem. destruct (h !! l) as [xs |]; [| done].
  by destruct (xs !! i).
Qed.

Lemma list_len_state l (h : heap) : snd (list_len l h) = h.
Proof. unfold list_len. by destruct (h !! l). Qed.

Lemma keeps_lists_for_enumerate (body : obj → HM obj) l :
  (∀ x h, keeps_lists h (snd (body x h))) →
  ∀ n i h, keeps_lists h (snd (for_enumerate body l i n h)).
Proof.
  intros Hbody n. induction n as [| n IH]; intros i h; [apply keeps_lists_refl |].
  cbn [for_enumerate]. unfold mbind, HM_bind.
  pose proof (list_getitem_state l i h) as Hg.
  destruct (list_getitem l i h) as [[x | e] h0]; simpl in Hg; subst h0;
    [| apply keeps_lists_refl].
  pose proof (Hbody x h) as Hb.
  destruct (body x h) as [[y | e] h1]; simpl in Hb; [| done].
  pose proof (keeps_lists_setitem l i y h1) as Hs.
  destruct (list_setitem l i y h1) as [[[] | e] h2]; simpl in Hs.
  - eapply keeps_lists_trans; [exact Hb |].
    eapply keeps_lists_trans; [exact Hs | apply IH].
  - by eapply keeps_lists_trans.
Qed.

(** X11: whatever its argument, the depth left and the file system, and
    whether it returns or raises, isPath drops no list from the store and
    changes the length of none: it only replaces elements and makes new
    lists. *)
Theorem isPath_keeps_lists (E : env) (depth : nat) (v : obj) (h : heap) :
  keeps_lists h (snd (isPath E depth v h)).
Proof.
  revert v h. induction depth as [| d IH]; intros v h; [apply keeps_lists_refl |].
  destruct v as [| b | z | s | l]; cbn [isPath].
  - apply keeps_lists_refl.
  - destruct (falsy (OBool b)); apply keeps_lists_refl.
  - destruct (falsy (OInt z)); apply keeps_lists_refl.
  - destruct (falsy (OStr s)); [apply keeps_lists_refl |].
    destruct (str_contains "," s).
    + unfold mbind, HM_bind.
      pose proof (keeps_lists_new_list
                    (OStr <$> py_split "," (py_rstrip "]" (py_lstrip "[" s))) h) as Hn.
      destruct (new_list _ h) as [[files | e] h0]; simpl in Hn; [| done].
      pose proof (list_len_state files h0) as Hl.
      destruct (list_len files h0) as [[n | e] h1]; simpl in Hl; subst h1; [| done].
      pose proof (keeps_lists_for_enumerate (isPath E d) files IH n 0%nat h0) as Hf.
      destruct (for_enumerate (isPath E d) files 0 n h0) as [[[] | e] h2];
        simpl in Hf; by eapply keeps_lists_trans.
    + cbn [negb andb].
      destruct (str_contains "*" s && path_exists E (abspath E (path_split s).1)).
      { unfold mbind, HM_bind.
        pose proof (keeps_lists_new_list
                      (OStr <$> glob E (abspath E (path_split s).1 +:+ sep
                                          +:+ (path_split s).2)) h) as Hn.
        by destruct (new_list _ h) as [[r | e] h0]. }
      destruct (negb (str_contains "*" s) && path_exists E (abspath E s));
        [| apply keeps_lists_refl].
      destruct (isdir E (abspath E s)); apply keeps_lists_refl.
  - unfold mbind, HM_bind.
    pose proof (list_len_state l h) as Hl.
    destruct (list_len l h) as [[n | e] h1]; simpl in Hl; subst h1;
      [| apply keeps_lists_refl].
    pose proof (keeps_lists_for_enumerate (isPath E d) l IH n 0%nat h) as Hf.
    by destruct (for_enumerate (isPath E d) l 0 n h) as [[[] | e] h2].
Qed.

(** X12: a list that is its own first element cannot be normalised: at
    every depth isPath runs out of depth on it, and leaves the store as it
    was. *)
Theorem isPath_own_element (E : env) (depth : nat) (l : loc) (rest : list obj)
    (h : heap) :
  h !! l = Some (OList l :: rest) →
  isPath E depth (OList l) h
  = (Err (RuntimeError "maximum recursion depth exceeded"), h).
Proof.
  intros Hl. induction depth as [| d IH]; [done |].
  cbn [isPath]. unfold mbind, HM_bind, list_len. rewrite Hl.
  cbn [for_enumerate length]. unfold mbind, HM_bind, list_getitem. rewrite Hl.
  simpl. by rewrite IH.
Qed.

Lemma isPath_own_element_witness :
  let h : heap := {[ 1%positive := [OList 1%positive; OStr "/data"] ]} in
  h !! 1%positive = Some [OList 1%positive; OStr "/data"]
  ∧ isPath demo_env 1000 (OList 1%positive) h
    = (Err (RuntimeError "maximum recursion depth exceeded"), h).
Proof.
  intros h.
  assert (Hl : h !! 1%positive = Some [OList 1%positive; OStr "/data"])
    by (vm_compute; reflexivity).
  split; [exact Hl |].
  exact (isPath_own_element demo_env 1000 1%positive [OStr "/data"] h Hl).
Defined.

(** ** parser_group *)

(** X13: parser_group needs strings where it builds help texts.  With a
    module name that is not a string it raises TypeError before it
    registers anything, on any group.  With a default wall time that is
    not a string it raises after seven options are registered, and with a
    default queue that is not a string after eight: the group is left with
    part of the options. *)
Theorem parser_group_needs_strings (ARGPARSE : bool)
    (bad_name bad_walltime bad_queue : pyval) (m walltime : string)
    (default_nodes default_ppn default_pmem default_walltime default_queue : pyval)
    (g : list argument) :
  (∀ s, bad_name ≠ VStr s) →
  (∀ s, bad_walltime ≠ VStr s) →
  (∀ s, bad_queue ≠ VStr s) →
  (∀ G (add_argument add_option : adder G) (group : G),
     parser_group ARGPARSE add_argument add_option bad_name default_nodes default_ppn
                  default_pmem default_walltime default_queue group
     = (Err (TypeError ("cannot concatenate 'str' and '" +:+ type_name bad_name
                          +:+ "' objects")), group))
  ∧ (∃ registered,
       parser_group ARGPARSE record_option record_option (VStr m) default_nodes
                    default_ppn default_pmem bad_walltime default_queue g
       = (Err (TypeError ("cannot concatenate 'str' and '" +:+ type_name bad_walltime
                            +:+ "' objects")), g ++ registered)
       ∧ arg_dest <$> registered
         = ["qsub"; "qsub_nodes"; "qsub_ppn"; "qsub_pmem"; "qsub_M"; "qsub_m"; "qsub_N"])
  ∧ (∃ registered,
       parser_group ARGPARSE record_option record_option (VStr m) default_nodes
                    default_ppn default_pmem (VStr walltime) bad_queue g
       = (Err (TypeError ("cannot concatenate 'str' and '" +:+ type_name bad_queue
                            +:+ "' objects")), g ++ registered)
       ∧ arg_dest <$> registered
         = ["qsub"; "qsub_nodes"; "qsub_ppn"; "qsub_pmem"; "qsub_M"; "qsub_m"; "qsub_N";
            "qsub_walltime"]).
Proof.
  intros Hn Hw Hq. split; [| split].
  - intros G add_argument add_option group. unfold parser_group, sm_bind, sm_lift.
    destruct bad_name; try done. by destruct (Hn s).
  - unfold parser_group, sm_bind, sm_lift, record_option.
    destruct ARGPARSE; cbn [str_add];
      (destruct bad_walltime; cbn [str_add type_name]; try (by destruct (Hw s));
       rewrite <- !app_assoc; eexists; (split; [reflexivity |]); reflexivity).
  - unfold parser_group, sm_bind, sm_lift, record_option.
    destruct ARGPARSE; cbn [str_add];
      (destruct bad_queue; cbn [str_add type_name]; try (by destruct (Hq s));
       rewrite <- !app_assoc; eexists; (split; [reflexivity |]); reflexivity).
Qed.

Lemma parser_group_needs_strings_witness :
  parser_group true record_option record_option (VBool false) (VInt 1) (VInt 8) (VInt 1)
               (VStr "24:00:00") (VStr "auto") []
  = (Err (TypeError "cannot concatenate 'str' and 'bool' objects"), []).
Proof.
  apply (parser_group_needs_strings true (VBool false) VNone (VInt 3) "foo" "24:00:00"
           (VInt 1) (VInt 8) (VInt 1) (VStr "24:00:00") (VStr "auto") []);
    discriminate.
Defined.

(** X14: the options parser_group registers are the ones submit reads.
    With strings for module name, wall time and queue and integers for
    nodes, processes and memory, it registers nine options, the same with
    argparse and with optparse; the namespace of their defaults has the
    job name [qsub_N] set to the module name and renders, without a job
    string, as the script with the lines for job name, wall time, nodes
    and processes, memory (unless 0) and queue, no mail line and no
    launcher. *)
Theorem parser_group_defaults_render (ARGPARSE : bool) (m walltime queue : string)
    (nodes ppn pmem : Z) (optstr : string) :
  ∃ registered,
    parser_group ARGPARSE record_option record_option (VStr m) (VInt nodes) (VInt ppn)
                 (VInt pmem) (VStr walltime) (VStr queue) []
    = (Ok tt, registered)
    ∧ keys (namespace_defaults registered)
      = ["qsub"; "qsub_nodes"; "qsub_ppn"; "qsub_pmem"; "qsub_M"; "qsub_m"; "qsub_N";
         "qsub_walltime"; "qsub_q"]
    ∧ dict_get "qsub_N" (namespace_defaults registered) = Some (VStr m)
    ∧ render_script (namespace_defaults registered) (VStr m) (VBool false) optstr
      = Ok ("#!/bin/bash" +:+ nl +:+ "##" +:+ item0 (py_split "." m) +:+ " qsub script"
            +:+ nl +:+ "#PBS -S /bin/sh" +:+ nl +:+ "#PBS -N " +:+ m +:+ nl
            +:+ "#PBS -l walltime=" +:+ walltime +:+ nl +:+ "#PBS -V" +:+ nl
            +:+ "#PBS -l nodes=" +:+ str_of_Z nodes +:+ ":ppn=" +:+ str_of_Z ppn +:+ nl
            +:+ (if pmem =? 0 then EmptyString
                 else "#PBS -l pmem=" +:+ str_of_Z pmem +:+ "Gb" +:+ nl)
            +:+ "#PBS -q " +:+ queue +:+ nl
            +:+ "python -c " +:+ dquote +:+ "import " +:+ item0 (py_split "." m) +:+ "; "
            +:+ item0 (py_split "." m) +:+ ".__run__()" +:+ dquote +:+ " " +:+ optstr
            +:+ nl).
Proof.
  eexists. split.
  { unfold parser_group, sm_bind, sm_lift, record_option.
    destruct ARGPARSE; cbn [str_add app]; reflexivity. }
  split; [reflexivity |]. split; [reflexivity |].
  rewrite render_script_parts.
  unfold script_head, pmem_directive, script_tail, namespace_defaults.
  cbn [map arg_dest arg_default getitem dict_get dict_get_default String.eqb Ascii.eqb
       Bool.eqb split_method mbind result_bind truthy py_str str_add py_int negb].
  destruct (pmem =? 0); cbn [negb mbind result_bind];
    by rewrite ?str_app_assoc, ?str_app_nil_r.
Qed.

(** ** Dictionaries: assignment *)







(** ** The command line *)










(** Without argparse [__run__] stops on a NameError, whatever the parser
    and the command line: the optparse parser is constructed from two names
    that are defined nowhere.  This is the second branch of the definition
    read off. *)
Remark run_without_argparse {G} (new_parser : G) (add_argument add_option : adder G)
    (parse_known_args : G → list string → parse_result)
    (sys_argv inputArgs : list string) :
  __run__ false new_parser add_argument add_option parse_known_args sys_argv inputArgs
  = Stop (NameError "global name 'description' is not defined").
Proof. reflexivity. Qed.




